(** * Verification of app/main.py (Open Meteo Weather Prediction API)

    Shallow embedding of the two prediction handlers of [app/main.py]
    together with the parts of the Python runtime they rely on:
    [datetime.strptime] (the pure-Python [_strptime] module),
    [datetime + timedelta] (the C module [_datetime]: [normalize_y_m_d],
    [ord_to_ymd], [ymd_to_ord]), [strftime], [max], [round] on floats
    (binary64, modelled with [SpecFloat]) and the response rendering of
    the web framework. *)

From Stdlib Require Import ZArith List Lia Bool String Ascii QArith Qabs SpecFloat.
Import ListNotations.
Open Scope Z_scope.
Set Warnings "-register-all".

(** ** Calendar arithmetic of CPython's [_datetime] module *)
Module Cal.

Definition MINYEAR : Z := 1.
Definition MAXYEAR : Z := 9999.
(** [MAXORDINAL] = [ymd_to_ord(MAXYEAR, 12, 31)]. *)
Definition MAXORDINAL : Z := 3652059.
Definition DI4Y : Z := 1461.
Definition DI100Y : Z := 36524.
Definition DI400Y : Z := 146097.

(** [static int is_leap(int year)] *)
Definition is_leap (year : Z) : bool :=
  (year mod 4 =? 0) && (negb (year mod 100 =? 0) || (year mod 400 =? 0)).

(** [_days_in_month[month]], index 1..12 *)
Definition days_in_month_tbl (month : Z) : Z :=
  match month with
  | 1 => 31 | 2 => 28 | 3 => 31 | 4 => 30 | 5 => 31 | 6 => 30
  | 7 => 31 | 8 => 31 | 9 => 30 | 10 => 31 | 11 => 30 | 12 => 31
  | _ => 0
  end.

(** [_days_before_month[month]], index 1..12 *)
Definition days_before_month_tbl (month : Z) : Z :=
  match month with
  | 1 => 0 | 2 => 31 | 3 => 59 | 4 => 90 | 5 => 120 | 6 => 151
  | 7 => 181 | 8 => 212 | 9 => 243 | 10 => 273 | 11 => 304 | 12 => 334
  | _ => 0
  end.

(** [static int days_in_month(int year, int month)] *)
Definition days_in_month (year month : Z) : Z :=
  if (month =? 2) && is_leap year then 29 else days_in_month_tbl month.

(** [static int days_before_month(int year, int month)] *)
Definition days_before_month (year month : Z) : Z :=
  if (month >? 2) && is_leap year
  then days_before_month_tbl month + 1
  else days_before_month_tbl month.

(** [static int days_before_year(int year)]; the C division is on the
    non-negative [year - 1] (years are >= 1), where it agrees with [Z.div]. *)
Definition days_before_year (year : Z) : Z :=
  let y := year - 1 in
  y * 365 + y / 4 - y / 100 + y / 400.

(** [static int ymd_to_ord(int year, int month, int day)] *)
Definition ymd_to_ord (year month day : Z) : Z :=
  days_before_year year + days_before_month year month + day.

(** The last block of [ord_to_ymd]: from the offset [n] of the day in its
    year, the month (an estimate that is exact or one too large) and the
    day. *)
Definition ord_to_ymd_month (year : Z) (leapyear : bool) (n : Z) : Z * Z :=
  let month := Z.shiftr (n + 50) 5 in
  let preceding :=
    days_before_month_tbl month + (if (month >? 2) && leapyear then 1 else 0) in
  let '(month, preceding) :=
    if preceding >? n then
      let month := month - 1 in
      (month, preceding - days_in_month year month)
    else (month, preceding) in
  (month, n - preceding + 1).

(** [static void ord_to_ymd(int ordinal, int *year, int *month, int *day)];
    called with [ordinal >= 1], so every C division below is on
    non-negative operands. *)
Definition ord_to_ymd (ordinal : Z) : Z * Z * Z :=
  let o := ordinal - 1 in
  let n400 := o / DI400Y in
  let n := o mod DI400Y in
  let year := n400 * 400 + 1 in
  let n100 := n / DI100Y in
  let n := n mod DI100Y in
  let n4 := n / DI4Y in
  let n := n mod DI4Y in
  let n1 := n / 365 in
  let n := n mod 365 in
  let year := year + n100 * 100 + n4 * 4 + n1 in
  if (n1 =? 4) || (n100 =? 4) then (year - 1, 12, 31)
  else
    let leapyear := (n1 =? 3) && (negb (n4 =? 24) || (n100 =? 3)) in
    let '(month, day) := ord_to_ymd_month year leapyear n in
    (year, month, day).

(** Result of a C routine that may set [OverflowError]. *)
Inductive c_result (A : Type) :=
| COk (a : A)
| COverflow.
Arguments COk {A} a.
Arguments COverflow {A}.

(** [static int normalize_y_m_d(int *y, int *m, int *d)] *)
Definition normalize_y_m_d (y m d : Z) : c_result (Z * Z * Z) :=
  let range_check '(y, m, d) :=
    if (MINYEAR <=? y) && (y <=? MAXYEAR) then COk (y, m, d) else COverflow in
  let dim := days_in_month y m in
  if (d <? 1) || (d >? dim) then
    if d =? 0 then
      let m := m - 1 in
      if m >? 0 then range_check (y, m, days_in_month y m)
      else range_check (y - 1, 12, 31)
    else if d =? dim + 1 then
      let m := m + 1 in
      if m >? 12 then range_check (y + 1, 1, 1) else range_check (y, m, 1)
    else
      let ordinal := ymd_to_ord y m 1 + d - 1 in
      if (ordinal <? 1) || (ordinal >? MAXORDINAL) then COverflow
      else COk (ord_to_ymd ordinal)
  else range_check (y, m, d).

(** [datetime + timedelta(days=k)] on a datetime at midnight
    ([add_datetime_timedelta]: the day field is shifted, then
    [normalize_datetime]; hours, minutes, seconds stay 0). *)
Definition add_days (ymd : Z * Z * Z) (k : Z) : c_result (Z * Z * Z) :=
  let '(y, m, d) := ymd in normalize_y_m_d y m (d + k).

(** A date the [datetime] constructor accepts ([check_date_args]). *)
Definition valid_date (y m d : Z) : bool :=
  (MINYEAR <=? y) && (y <=? MAXYEAR) && (1 <=? m) && (m <=? 12)
  && (1 <=? d) && (d <=? days_in_month y m).

(** *** The calendar the claims speak of: one day after another *)

(** The day after a date of the proleptic Gregorian calendar. *)
Definition next_day (ymd : Z * Z * Z) : Z * Z * Z :=
  let '(y, m, d) := ymd in
  if d <? days_in_month y m then (y, m, d + 1)
  else if m <? 12 then (y, m + 1, 1)
  else (y + 1, 1, 1).

Fixpoint add_days_spec (k : nat) (ymd : Z * Z * Z) : Z * Z * Z :=
  match k with
  | O => ymd
  | S k' => add_days_spec k' (next_day ymd)
  end.

End Cal.

(** ** The Python runtime pieces the handlers use *)
Module Py.
Import Cal.

(** A Python [str]: its sequence of Unicode code points. *)
Definition pystr := list Z.

(** The code points of an ASCII literal. *)
Definition ascii_codes (s : string) : pystr :=
  map (fun c => Z.of_nat (nat_of_ascii c)) (list_ascii_of_string s).

(** Python exceptions. [PyExc] stands for any other exception class, by
    name and message. *)
Inductive exn :=
| ValueError (msg : string)
| OverflowError (msg : string)
| IndexError (msg : string)
| TypeError (msg : string)
| PyExc (name msg : string)
| HTTPException (status_code : Z) (detail : string).

(** [str(e)] *)
Definition exn_str (e : exn) : string :=
  match e with
  | ValueError m | OverflowError m | IndexError m | TypeError m | PyExc _ m => m
  | HTTPException _ d => d
  end.

Definition is_value_error (e : exn) : bool :=
  match e with ValueError _ => true | _ => false end.

(** A Python computation: a value or a raised exception. *)
Inductive outcome (A : Type) :=
| Ret (a : A)
| Raise (e : exn).
Arguments Ret {A} a.
Arguments Raise {A} e.

Section Unicode.

(** Decimal-digit value of a non-ASCII code point (Unicode category Nd)
    in the Unicode database of the running interpreter. *)
Variable unicode_decimal : Z -> option Z.

(** The digit value [\d] and [int()] see in a code point. *)
Definition decimal (c : Z) : option Z :=
  if c <? 128 then
    if (48 <=? c) && (c <=? 57) then Some (c - 48) else None
  else
    match unicode_decimal c with
    | Some v => if (0 <=? v) && (v <? 10) then Some v else None
    | None => None
    end.

(** *** A backtracking regular-expression matcher

    A matcher lists the (matched text, rest of input) pairs in the order
    the backtracking engine of [re] tries them; [re.match] keeps the
    first one with which the whole pattern matches. *)
Definition matcher := pystr -> list (pystr * pystr).

Definition m_class (p : Z -> bool) : matcher :=
  fun s => match s with
           | c :: r => if p c then [([c], r)] else []
           | [] => []
           end.

Definition m_seq (m1 m2 : matcher) : matcher :=
  fun s => flat_map (fun '(c1, r1) => map (fun '(c2, r2) => (c1 ++ c2, r2)) (m2 r1)) (m1 s).

Definition m_alt (m1 m2 : matcher) : matcher := fun s => m1 s ++ m2 s.

(** A character class of ASCII range [[lo-hi]], a literal, and [\d]. *)
Definition m_range (lo hi : Z) : matcher := m_class (fun c => (lo <=? c) && (c <=? hi)).
Definition m_lit (c0 : Z) : matcher := m_class (Z.eqb c0).
Definition m_digit : matcher :=
  m_class (fun c => match decimal c with Some _ => true | None => false end).

(** [_strptime.TimeRE]: ['Y': r"(?P<Y>\d\d\d\d)"] *)
Definition re_Y : matcher := m_seq m_digit (m_seq m_digit (m_seq m_digit m_digit)).

(** ['m': r"(?P<m>1[0-2]|0[1-9]|[1-9])"] *)
Definition re_m : matcher :=
  m_alt (m_seq (m_lit 49) (m_range 48 50))
    (m_alt (m_seq (m_lit 48) (m_range 49 57))
       (m_range 49 57)).

(** ['d': r"(?P<d>3[0-1]|[1-2]\d|0[1-9]|[1-9]| [1-9])"] *)
Definition re_d : matcher :=
  m_alt (m_seq (m_lit 51) (m_range 48 49))
    (m_alt (m_seq (m_range 49 50) m_digit)
       (m_alt (m_seq (m_lit 48) (m_range 49 57))
          (m_alt (m_range 49 57)
             (m_seq (m_lit 32) (m_range 49 57))))).

(** [format_regex.match(data_string)] for the format ["%Y-%m-%d"]: the
    groups [Y], [m], [d] of the first match, and the input left after it. *)
Definition format_regex_match (s : pystr) : option (pystr * pystr * pystr * pystr) :=
  hd_error
    (flat_map (fun '(ys, r1) =>
       flat_map (fun '(_, r2) =>
         flat_map (fun '(ms, r3) =>
           flat_map (fun '(_, r4) =>
             map (fun '(ds, r5) => (ys, ms, ds, r5)) (re_d r4))
           (m_lit 45 r3))
         (re_m r2))
       (m_lit 45 r1))
     (re_Y s)).

(** [int(text)] on a matched group: leading spaces are stripped, then
    the decimal digits are read. *)
Fixpoint strip_spaces (s : pystr) : pystr :=
  match s with
  | 32 :: r => strip_spaces r
  | _ => s
  end.

Definition py_int (s : pystr) : Z :=
  fold_left (fun acc c => match decimal c with Some v => acc * 10 + v | None => acc end)
    (strip_spaces s) 0.

(** [datetime.strptime(data_string, "%Y-%m-%d")] ([_strptime._strptime]
    then the [datetime] constructor); the time fields are 0. *)
Definition strptime (s : pystr) : outcome (Z * Z * Z) :=
  match format_regex_match s with
  | None => Raise (ValueError "time data does not match format '%Y-%m-%d'")
  | Some (ys, ms, ds, rest) =>
      match rest with
      | _ :: _ => Raise (ValueError "unconverted data remains")
      | [] =>
          let year := py_int ys in
          let month := py_int ms in
          let day := py_int ds in
          if valid_date year month day then Ret (year, month, day)
          else Raise (ValueError "day is out of range for month")
      end
  end.

End Unicode.

(** [input_date + timedelta(days=k)]. *)
Definition timedelta_add (ymd : Z * Z * Z) (k : Z) : outcome (Z * Z * Z) :=
  match add_days ymd k with
  | COk r => Ret r
  | COverflow => Raise (OverflowError "date value out of range")
  end.

(** [n] in decimal on [w] digits, zero-padded ([%Y] on 4, [%m] and [%d]
    on 2; the fields of a [datetime] never need more). *)
Fixpoint pad_digits (w : nat) (n : Z) : pystr :=
  match w with
  | O => []
  | S w' => pad_digits w' (n / 10) ++ [48 + n mod 10]
  end.

(** [dt.strftime("%Y-%m-%d")], the year zero-padded to 4 digits. This is
    what every CPython writes for years 1000 to 9999. For years below 1000
    it is the output of CPython 3.12.5 and later (and of platforms whose C
    [strftime] pads [%Y]); older CPython on glibc writes such years without
    padding. The statements below whose conclusion depends on the
    written year therefore assume years from 1000 on. *)
Definition strftime_Ymd (ymd : Z * Z * Z) : pystr :=
  let '(y, m, d) := ymd in
  pad_digits 4 y ++ [45] ++ pad_digits 2 m ++ [45] ++ pad_digits 2 d.

(** *** Python [float]: IEEE-754 binary64 *)
Definition float := spec_float.
Definition prec : Z := 53.
Definition emax : Z := 1024.

Definition float_zero : float := S754_zero false.
(** [0.5] and [1.0] in their canonical binary64 form (53-bit mantissa). *)
Definition float_half : float := S754_finite false 4503599627370496 (-53).
Definition float_one : float := S754_finite false 4503599627370496 (-52).

Definition is_finite (x : float) : bool :=
  match x with
  | S754_zero _ | S754_finite _ _ _ => true
  | _ => false
  end.

(** [x > y] and [x >= y] on floats (false when a NaN is involved). *)
Definition float_gt (x y : float) : bool :=
  match SFcompare x y with Some Gt => true | _ => false end.
Definition float_ge (x y : float) : bool :=
  match SFcompare x y with Some Gt | Some Eq => true | _ => false end.

(** The builtin [max(a, b)]: the first argument is kept unless the
    second compares greater ([min_max] in [bltinmodule.c]). *)
Definition py_max (a b : float) : float := if float_gt b a then b else a.

(** [num / den] rounded to the nearest integer, ties to even ([den > 0]). *)
Definition round_half_even_div (num den : Z) : Z :=
  let '(q, r) := Z.div_eucl num den in
  match Z.compare (2 * r) den with
  | Lt => q
  | Gt => q + 1
  | Eq => if Z.even q then q else q + 1
  end.

(** [double_round(x, ndigits)] in [floatobject.c] for a finite [x]:
    [_Py_dg_dtoa] in mode 3 rounds [x] exactly to [ndigits] decimals,
    ties to even, giving the integer [k] of [k * 10^-ndigits];
    [_Py_dg_strtod] converts that decimal back to the nearest double. *)
Definition double_round (x : float) (ndigits : nat) : outcome float :=
  let scale := 10 ^ Z.of_nat ndigits in
  match x with
  | S754_finite s m e =>
      let k := if 0 <=? e then Zpos m * 2 ^ e * scale
               else round_half_even_div (Zpos m * scale) (2 ^ (- e)) in
      match k with
      | Zpos kp =>
          match SFdiv prec emax (S754_finite s kp 0) (S754_finite false (Z.to_pos scale) 0) with
          | S754_infinity _ => Raise (OverflowError "rounded value too large to represent")
          | r => Ret r
          end
      | _ => Ret (S754_zero s)
      end
  | _ => Ret x
  end.

(** [float.__round__(ndigits)] for [ndigits >= 0]: NaNs and infinities
    round to themselves; beyond [NDIGITS_MAX] (323) [x] is returned. *)
Definition float_round (x : float) (ndigits : nat) : outcome float :=
  if negb (is_finite x) then Ret x
  else if 323 <? Z.of_nat ndigits then Ret x
  else double_round x ndigits.

(** *** JSON values of the responses *)
Inductive jv :=
| JStr (s : pystr)
| JBool (b : bool)
| JFloat (f : float)
| JObj (kvs : list (string * jv)).

(** The framework renders with [json.dumps(..., allow_nan=False)]: a
    non-finite float raises [ValueError]. *)
Fixpoint json_allowed (v : jv) : bool :=
  match v with
  | JFloat f => is_finite f
  | JObj kvs =>
      (fix go (l : list (string * jv)) : bool :=
         match l with
         | [] => true
         | (_, v') :: l' => json_allowed v' && go l'
         end) kvs
  | _ => true
  end.

End Py.

(** ** The handlers of app/main.py *)
Module App.
Import Py.

(** A [pandas.DataFrame] of one row: its column labels and the row. *)
Record Frame := {
  frame_columns : option (list string);
  frame_row : list Z
}.

(** A fitted estimator loaded by [joblib.load], seen through the
    attributes and methods the handlers use; [n_features_in_] is [None]
    when the attribute is absent. *)
Record Estimator := {
  feature_names_in_ : option (list string);
  n_features_in_ : option Z;
  predict_proba : Frame -> outcome (list (list float));
  predict : Frame -> outcome (list float)
}.

(** The module-level state set at startup: [rain_model], [precip_model]
    and [rain_threshold]. *)
Record Globals := {
  rain_model : Estimator;
  precip_model : Estimator;
  rain_threshold : float
}.

(** *** A state and exception monad over the module globals *)
Definition M (A : Type) : Type := Globals -> outcome A * Globals.

Definition ret {A} (a : A) : M A := fun g => (Ret a, g).
Definition bind {A B} (m : M A) (f : A -> M B) : M B :=
  fun g => match m g with
           | (Ret a, g') => f a g'
           | (Raise e, g') => (Raise e, g')
           end.
Definition raise {A} (e : exn) : M A := fun g => (Raise e, g).
Definition lift {A} (r : outcome A) : M A := fun g => (r, g).
Definition get : M Globals := fun g => (Ret g, g).

(** [try: m except <class> as e: h(e)], the class tested by [catches]. *)
Definition try_except {A} (m : M A) (catches : exn -> bool) (h : exn -> M A) : M A :=
  fun g => match m g with
           | (Raise e, g') => if catches e then h e g' else (Raise e, g')
           | r => r
           end.

Notation "x <- m ;; k" := (bind m (fun x => k))
  (at level 61, m at next level, right associativity).

(** [except Exception]: every exception the model code can raise. *)
Definition any_exception (e : exn) : bool := true.

(** [def _empty_feature_frame(model)] *)
Definition empty_feature_frame (model : Estimator) : Frame :=
  match feature_names_in_ model with
  | None =>
      let n := match n_features_in_ model with Some n => n | None => 0 end in
      {| frame_columns := None; frame_row := repeat 0 (Z.to_nat n) |}
  | Some cols =>
      {| frame_columns := Some cols; frame_row := repeat 0 (List.length cols) |}
  end.

(** [a[:, 1]] on a 2-D array given by its rows; a row too short for index
    1 has 0 or 1 entries, the size numpy reports. *)
Fixpoint column1 (rows : list (list float)) : outcome (list float) :=
  match rows with
  | [] => Ret []
  | row :: rows' =>
      match nth_error row 1, column1 rows' with
      | Some v, Ret col => Ret (v :: col)
      | None, _ =>
          Raise (IndexError (String.append "index 1 is out of bounds for axis 1 with size "
                               (if Nat.eqb (List.length row) 0 then "0" else "1")))
      | _, Raise e => Raise e
      end
  end.

(** [v[0]] *)
Definition first (v : list float) : outcome float :=
  match v with
  | x :: _ => Ret x
  | [] => Raise (IndexError "index 0 is out of bounds for axis 0 with size 0")
  end.

(** [float(rain_model.predict_proba(X)[:, 1][0])] *)
Definition rain_proba (model : Estimator) (X : Frame) : outcome float :=
  match predict_proba model X with
  | Raise e => Raise e
  | Ret rows => match column1 rows with Ret col => first col | Raise e => Raise e end
  end.

(** [float(precip_model.predict(X)[0])] *)
Definition precip_value (model : Estimator) (X : Frame) : outcome float :=
  match predict model X with
  | Raise e => Raise e
  | Ret v => first v
  end.

Definition invalid_date_detail : string := "Invalid date format. Use YYYY-MM-DD".

Section Handlers.
Variable unicode_decimal : Z -> option Z.

(** [def predict_rain(date: str)] *)
Definition predict_rain (date : pystr) : M jv :=
  input_date <- try_except (lift (strptime unicode_decimal date)) is_value_error
                  (fun _ => raise (HTTPException 400 invalid_date_detail)) ;;
  pred_date <- lift (timedelta_add input_date 7) ;;
  g <- get ;;
  let X := empty_feature_frame (rain_model g) in
  proba <- try_except (lift (rain_proba (rain_model g) X)) any_exception
             (fun e => raise (HTTPException 500 (String.append "Prediction error: " (exn_str e)))) ;;
  g' <- get ;;
  let will_rain := float_ge proba (rain_threshold g') in
  ret (JObj [("input_date"%string, JStr date);
             ("prediction"%string, JObj [("date"%string, JStr (strftime_Ymd pred_date));
                                  ("will_rain"%string, JBool will_rain)])]).

(** [def predict_precip(date: str)] *)
Definition predict_precip (date : pystr) : M jv :=
  input_date <- try_except (lift (strptime unicode_decimal date)) is_value_error
                  (fun _ => raise (HTTPException 400 invalid_date_detail)) ;;
  start_date <- lift (timedelta_add input_date 1) ;;
  end_date <- lift (timedelta_add input_date 3) ;;
  g <- get ;;
  let X := empty_feature_frame (precip_model g) in
  precip <- try_except (lift (precip_value (precip_model g) X)) any_exception
              (fun e => raise (HTTPException 500 (String.append "Prediction error: " (exn_str e)))) ;;
  fall <- lift (float_round (py_max float_zero precip) 2) ;;
  ret (JObj [("input_date"%string, JStr date);
             ("prediction"%string, JObj [("start_date"%string, JStr (strftime_Ymd start_date));
                                  ("end_date"%string, JStr (strftime_Ymd end_date));
                                  ("precipitation_fall"%string, JFloat fall)])]).

End Handlers.

(** *** What the client receives *)
Record http_response := {
  status : Z;
  content : jv
}.

(** The framework's answer to a handler's outcome: the returned value
    rendered as JSON with status 200 (a rendering error is an unhandled
    exception), an [HTTPException] as its status and [{"detail": ...}],
    any other exception as 500. *)
Definition respond (r : outcome jv) : http_response :=
  match r with
  | Ret v =>
      if json_allowed v then {| status := 200; content := v |}
      else {| status := 500; content := JStr (ascii_codes "Internal Server Error") |}
  | Raise (HTTPException c d) =>
      {| status := c; content := JObj [("detail"%string, JStr (ascii_codes d))] |}
  | Raise _ => {| status := 500; content := JStr (ascii_codes "Internal Server Error") |}
  end.

Definition serve_rain (ud : Z -> option Z) (g : Globals) (date : pystr) : http_response :=
  respond (fst (predict_rain ud date g)).

Definition serve_precip (ud : Z -> option Z) (g : Globals) (date : pystr) : http_response :=
  respond (fst (predict_precip ud date g)).

End App.

(** ** Startup: models and the metadata threshold (lines 30-50) *)
Module Meta.
Import Py App.

(** A Python value produced by [json.load]. *)
Inductive pyval :=
| PNone
| PBool (b : bool)
| PInt (z : Z)
| PFloat (f : float)
| PStr (s : pystr)
| PList (l : list pyval)
| PDict (kvs : list (pystr * pyval)).

(** The metadata file as the startup code meets it: the resolved
    [META_MODEL1_PATH], whether [os.path.exists] holds for it, and what
    [open(...)] followed by [json.load(f)] gives (a value, or the
    exception raised while opening, decoding or parsing). *)
Record MetaFile := {
  meta_path : pystr;
  path_exists : bool;
  load_json : outcome pyval
}.

Fixpoint dict_lookup (k : pystr) (kvs : list (pystr * pyval)) : option pyval :=
  match kvs with
  | [] => None
  | (k', v) :: kvs' => if list_eq_dec Z.eq_dec k k' then Some v else dict_lookup k kvs'
  end.

Definition threshold_key : pystr := ascii_codes "threshold".

(** [float(n)] for an [int]: rounded to nearest, ties to even;
    [OverflowError] when the result would be infinite. *)
Definition int_to_float (z : Z) : outcome float :=
  match binary_normalize prec emax z 0 false with
  | S754_infinity _ => Raise (OverflowError "int too large to convert to float")
  | f => Ret f
  end.

Section Threshold.

(** [float(s)] on a [str]: CPython's float parser. *)
Variable float_of_str : pystr -> outcome float.

(** The builtin [float(v)] on a value [json.load] can produce. *)
Definition py_float (v : pyval) : outcome float :=
  match v with
  | PBool b => Ret (if b then float_one else float_zero)
  | PInt z => int_to_float z
  | PFloat f => Ret f
  | PStr s => float_of_str s
  | _ => Raise (TypeError "float() argument must be a string or a real number")
  end.

(** Lines 42-50: [rain_threshold = 0.5], then inside [try: ... except
    Exception: pass]. *)
Definition load_rain_threshold (mf : MetaFile) : float :=
  let rain_threshold := float_half in
  match meta_path mf with
  | [] => rain_threshold
  | _ :: _ =>
      if path_exists mf then
        match load_json mf with
        | Ret (PDict kvs) =>
            match dict_lookup threshold_key kvs with
            | Some v =>
                match py_float v with
                | Ret f => f
                | Raise _ => rain_threshold
                end
            | None => rain_threshold
            end
        | Ret _ => rain_threshold
        | Raise _ => rain_threshold
        end
      else rain_threshold
  end.

(** Lines 30-50: the two [joblib.load] calls (a failure aborts startup
    with [RuntimeError]) and the threshold. *)
Definition startup (rain precip : outcome Estimator) (mf : MetaFile) : outcome Globals :=
  match rain with
  | Raise e => Raise (PyExc "RuntimeError" (String.append "Failed to load rain model: " (exn_str e)))
  | Ret rm =>
      match precip with
      | Raise e => Raise (PyExc "RuntimeError" (String.append "Failed to load precip model: " (exn_str e)))
      | Ret pm =>
          Ret {| rain_model := rm; precip_model := pm; rain_threshold := load_rain_threshold mf |}
      end
  end.

End Threshold.

End Meta.

(** ** Resolution of the file paths (lines 7-15) and the module load *)
Module Paths.
Import Py App Meta.

(** Python's [a or b] on a [str]-or-[None] [a] and a [str] [b]: [a] when
    it is a non-empty string, [b] otherwise. *)
Definition py_or (a : option pystr) (b : pystr) : pystr :=
  match a with
  | Some (c :: cs) => c :: cs
  | _ => b
  end.

Section Environment.

(** [os.environ] (a variable may be set to the empty string) and
    [glob.glob(pattern)], in the order [glob] lists the files. *)
Variable environ : pystr -> option pystr.
Variable glob : pystr -> list pystr.

(** [def find_first(pattern, default=None)] *)
Definition find_first (pattern : pystr) (default : option pystr) : option pystr :=
  let files := glob pattern in
  match files with
  | f :: _ => Some f
  | [] => default
  end.

(** [os.getenv(key, default)] *)
Definition os_getenv (key default : pystr) : pystr :=
  match environ key with
  | Some v => v
  | None => default
  end.

(** [os.getenv(var, find_first(pattern) or fallback)] *)
Definition resolve_path (var pattern fallback : pystr) : pystr :=
  os_getenv var (py_or (find_first pattern None) fallback).

Definition RAIN_MODEL_PATH : pystr :=
  resolve_path (ascii_codes "RAIN_MODEL_PATH") (ascii_codes "models/*rain*classifier*.pkl")
    (ascii_codes "models/rain_classifier.pkl").
Definition PRECIP_MODEL_PATH : pystr :=
  resolve_path (ascii_codes "PRECIP_MODEL_PATH") (ascii_codes "models/*precip*regressor*.pkl")
    (ascii_codes "models/precipitation_regressor.pkl").
Definition META_MODEL1_PATH : pystr :=
  resolve_path (ascii_codes "META_MODEL1_PATH") (ascii_codes "models/*metadata*_model1*.json")
    (ascii_codes "models/metadata_model1.json").
Definition META_MODEL2_PATH : pystr :=
  resolve_path (ascii_codes "META_MODEL2_PATH") (ascii_codes "models/*metadata*_model2*.json")
    (ascii_codes "models/metadata_model2.json").

(** The file system as the module load meets it: [joblib.load(path)],
    [os.path.exists(path)], [json.load(open(path))], and [float(s)]. *)
Variable joblib_load : pystr -> outcome Estimator.
Variable path_exists_at : pystr -> bool.
Variable json_load_at : pystr -> outcome pyval.
Variable float_of_str : pystr -> outcome float.

(** Lines 12-50: resolving the paths, loading both models and the
    threshold ([META_MODEL2_PATH] is only printed). *)
Definition load_module : outcome Globals :=
  startup float_of_str (joblib_load RAIN_MODEL_PATH) (joblib_load PRECIP_MODEL_PATH)
    {| meta_path := META_MODEL1_PATH;
       path_exists := path_exists_at META_MODEL1_PATH;
       load_json := json_load_at META_MODEL1_PATH |}.

End Environment.

End Paths.

(** ** Readings of the specification *)
Module Spec.
Import Cal Py App.

Definition in_rng (lo hi c : Z) : bool := (lo <=? c) && (c <=? hi).
Definition ascii_digit (c : Z) : bool := in_rng 48 57 c.

(** [s] is the strict [YYYY-MM-DD] text of the date [(y, m, d)]: ten
    ASCII characters, zero-padded fields separated by ['-']. *)
Definition strict_text (s : pystr) (ymd : Z * Z * Z) : Prop :=
  exists y1 y2 y3 y4 m1 m2 d1 d2,
    s = [y1; y2; y3; y4; 45; m1; m2; 45; d1; d2]
    /\ forallb ascii_digit [y1; y2; y3; y4; m1; m2; d1; d2] = true
    /\ ymd = (1000 * (y1 - 48) + 100 * (y2 - 48) + 10 * (y3 - 48) + (y4 - 48),
              10 * (m1 - 48) + (m2 - 48),
              10 * (d1 - 48) + (d2 - 48)).

(** A strict-format [YYYY-MM-DD] string naming a valid calendar date. *)
Definition strict_date (s : pystr) : Prop :=
  exists y m d, strict_text s (y, m, d) /\ valid_date y m d = true.

(** The date [k] days after a date, as the calendar counts. *)
Definition plus_days (k : nat) (ymd : Z * Z * Z) : Z * Z * Z := add_days_spec k ymd.

Definition year_of (ymd : Z * Z * Z) : Z := fst (fst ymd).

(** *** The strings [datetime.strptime(s, "%Y-%m-%d")] accepts *)
Section Accepted.
Variable unicode_decimal : Z -> option Z.

Definition is_decimal (c : Z) : bool :=
  match decimal unicode_decimal c with Some _ => true | None => false end.

(** Four decimal digits (any Unicode decimal digit). *)
Definition year_text (t : pystr) : Prop :=
  List.length t = 4%nat /\ forallb is_decimal t = true.

(** A month written [1]..[9], [01]..[09] or [10]..[12]. *)
Definition month_text (t : pystr) : Prop :=
  (exists a, t = [a] /\ in_rng 49 57 a = true)
  \/ (exists b, t = [48; b] /\ in_rng 49 57 b = true)
  \/ (exists b, t = [49; b] /\ in_rng 48 50 b = true).

(** A day written [1]..[9], [' '1]..[' '9], [01]..[09], [1x] or [2x] with
    [x] a decimal digit, [30] or [31]. *)
Definition day_text (t : pystr) : Prop :=
  (exists a, t = [a] /\ in_rng 49 57 a = true)
  \/ (exists a, t = [32; a] /\ in_rng 49 57 a = true)
  \/ (exists b, t = [48; b] /\ in_rng 49 57 b = true)
  \/ (exists a b, t = [a; b] /\ in_rng 49 50 a = true /\ is_decimal b = true)
  \/ (exists b, t = [51; b] /\ in_rng 48 49 b = true).

(** [s] is [year '-' month '-' day] with those texts, and their values
    form a valid date. *)
Definition accepted_date (s : pystr) : Prop :=
  exists ys ms ds,
    s = ys ++ [45] ++ ms ++ [45] ++ ds
    /\ year_text ys /\ month_text ms /\ day_text ds
    /\ valid_date (py_int unicode_decimal ys) (py_int unicode_decimal ms)
                  (py_int unicode_decimal ds) = true.

End Accepted.

(** *** Exact values of floats and rounding to cents *)

(** The rational value of a finite float. *)
Definition float_Q (x : float) : Q :=
  match x with
  | S754_finite s m e =>
      let v := if 0 <=? e then inject_Z (Zpos m * 2 ^ e) else Zpos m # Z.to_pos (2 ^ (- e)) in
      if s then Qopp v else v
  | _ => 0
  end.

(** The double nearest to [k / 100]. *)
Definition nearest_cents (k : Z) : float :=
  match k with
  | Zpos kp => SFdiv prec emax (S754_finite false kp 0) (S754_finite false 100 0)
  | _ => S754_zero false
  end.

(** [k] is [v * 100] rounded to the nearest integer, ties to even. *)
Definition rounds_to_cents (v : Q) (k : Z) : Prop :=
  (Qabs (v * 100 - inject_Z k) < 1 # 2)%Q
  \/ ((Qabs (v * 100 - inject_Z k) == 1 # 2)%Q /\ Z.even k = true).

(** The [precipitation_fall] and [will_rain] fields of a response body. *)
Definition response_fall (c : jv) : option float :=
  match c with
  | JObj [_; (_, JObj [_; _; (_, JFloat f)])] => Some f
  | _ => None
  end.

Definition response_will_rain (c : jv) : option bool :=
  match c with
  | JObj [_; (_, JObj [_; (_, JBool b)])] => Some b
  | _ => None
  end.

(** *** The process serving requests one after another *)
Inductive request :=
| RainReq (date : pystr)
| PrecipReq (date : pystr).

Definition handle (ud : Z -> option Z) (q : request) : M jv :=
  match q with
  | RainReq d => predict_rain ud d
  | PrecipReq d => predict_precip ud d
  end.

(** Each request runs its handler on the module globals left by the
    previous ones; the responses are collected in order. *)
Fixpoint serve_all (ud : Z -> option Z) (qs : list request) (g : Globals)
  : list http_response * Globals :=
  match qs with
  | [] => ([], g)
  | q :: qs' =>
      let '(r, g') := handle ud q g in
      let '(rs, g'') := serve_all ud qs' g' in
      (respond r :: rs, g'')
  end.

(** *** The metadata file as the claims describe it *)

(** The path is set, the file exists and loads to a dict whose
    ["threshold"] entry is [v]. *)
Definition file_with_key (mf : Meta.MetaFile) (v : Meta.pyval) : Prop :=
  Meta.meta_path mf <> [] /\ Meta.path_exists mf = true
  /\ exists kvs, Meta.load_json mf = Ret (Meta.PDict kvs)
                /\ Meta.dict_lookup Meta.threshold_key kvs = Some v.

End Spec.

(** ** Sample inputs *)
Module Samples.
Import Py App Meta.

(** An interpreter whose Unicode database has no non-ASCII digits. *)
Definition no_unicode : Z -> option Z := fun _ => None.

(** The double nearest to [n / d]. *)
Definition q2f (n d : positive) : float :=
  SFdiv prec emax (S754_finite false n 0) (S754_finite false d 0).

(** A fitted model answering [[0.3, 0.7]] and [[1.234]]. *)
Definition est_ok : Estimator := {|
  feature_names_in_ := None;
  n_features_in_ := Some 3;
  predict_proba := fun _ => Ret [[q2f 3 10; q2f 7 10]];
  predict := fun _ => Ret [q2f 1234 1000]
|}.

(** A model whose calls raise. *)
Definition est_fail : Estimator := {|
  feature_names_in_ := None;
  n_features_in_ := None;
  predict_proba := fun _ => Raise (PyExc "NotFittedError" "This estimator is not fitted yet.");
  predict := fun _ => Raise (PyExc "NotFittedError" "This estimator is not fitted yet.")
|}.

(** A regressor answering [inf]. *)
Definition est_inf : Estimator := {|
  feature_names_in_ := Some ["a"%string; "b"%string];
  n_features_in_ := Some 2;
  predict_proba := fun _ => Ret [[q2f 1 2; q2f 1 2]];
  predict := fun _ => Ret [S754_infinity false]
|}.

(** Request dates. *)
Definition date_ex : pystr := ascii_codes "2024-02-25".
Definition date_max : pystr := ascii_codes "9999-12-31".
Definition date_29 : pystr := ascii_codes "9999-12-29".
Definition date_loose : pystr := ascii_codes "2024-1-5".

Definition g_ok : Globals := {| rain_model := est_ok; precip_model := est_ok; rain_threshold := float_half |}.
Definition g_fail : Globals := {| rain_model := est_fail; precip_model := est_fail; rain_threshold := float_half |}.
Definition g_inf : Globals := {| rain_model := est_ok; precip_model := est_inf; rain_threshold := float_half |}.

Definition meta_path1 : pystr := ascii_codes "models/metadata_model1.json".

(** [{"threshold": null}] and [{"threshold": 0.7}]. *)
Definition meta_null : MetaFile := {|
  meta_path := meta_path1; path_exists := true;
  load_json := Ret (PDict [(threshold_key, PNone)])
|}.
Definition meta_07 : MetaFile := {|
  meta_path := meta_path1; path_exists := true;
  load_json := Ret (PDict [(threshold_key, PFloat (q2f 7 10))])
|}.

(** A [float(str)] that rejects every string. *)
Definition no_float_str : pystr -> outcome float :=
  fun _ => Raise (ValueError "could not convert string to float").

(** A classifier threshold that is NaN (the metadata may hold [NaN]). *)
Definition g_nan : Globals := {| rain_model := est_ok; precip_model := est_ok; rain_threshold := S754_nan |}.

(** A regressor answering [nan]. *)
Definition est_nan : Estimator := {|
  feature_names_in_ := None;
  n_features_in_ := Some 3;
  predict_proba := fun _ => Ret [[q2f 1 2; q2f 1 2]];
  predict := fun _ => Ret [S754_nan]
|}.
Definition g_nanp : Globals := {| rain_model := est_ok; precip_model := est_nan; rain_threshold := float_half |}.

(** A date in another format. *)
Definition date_bad : pystr := ascii_codes "25/02/2024".
Definition date_long : pystr := ascii_codes "2024-02-250".

(** An environment setting [META_MODEL1_PATH] to the empty string, no
    file matching any pattern, every path existing and holding
    [{"threshold": 0.7}], and both models loading. *)
Definition env_meta_empty : pystr -> option pystr :=
  fun k => if list_eq_dec Z.eq_dec k (ascii_codes "META_MODEL1_PATH") then Some [] else None.
Definition glob_none : pystr -> list pystr := fun _ => [].
Definition load_ok : pystr -> outcome Estimator := fun _ => Ret est_ok.
Definition json_07 : pystr -> outcome pyval := fun _ => Ret (PDict [(threshold_key, PFloat (q2f 7 10))]).

End Samples.

(** ** The three error answers of the endpoints *)
Module Responses.
Import Py App.

(** The framework's answer to an unhandled exception. *)
Definition internal_error : http_response :=
  {| status := 500; content := JStr (ascii_codes "Internal Server Error") |}.

(** The answer to a date [strptime] rejects. *)
Definition bad_date_response : http_response :=
  {| status := 400; content := JObj [("detail"%string, JStr (ascii_codes invalid_date_detail))] |}.

(** The answer to a model call raising [e]. *)
Definition prediction_error_response (e : exn) : http_response :=
  {| status := 500;
     content := JObj [("detail"%string, JStr (ascii_codes (String.append "Prediction error: " (exn_str e))))] |}.

End Responses.

(** ** Auxiliary calendar definitions *)
Module CalAux.
Import Cal.

Fixpoint all_range (f : Z -> bool) (lo : Z) (k : nat) : bool :=
  match k with
  | O => true
  | S k' => f lo && all_range f (lo + 1) k'
  end.

(** The calendar of a year only depends on whether it is a leap year. *)
Definition dim_l (l : bool) (m : Z) : Z :=
  if (m =? 2) && l then 29 else days_in_month_tbl m.
Definition dbm_l (l : bool) (m : Z) : Z :=
  if (m >? 2) && l then days_before_month_tbl m + 1 else days_before_month_tbl m.
Definition leap_int (l : bool) : Z := if l then 1 else 0.

(** Representative years: 4 is a leap year, 1 is not. *)
Definition rep_year (l : bool) : Z := if l then 4 else 1.

(** Finite check of the month block of [ord_to_ymd] for every day of a
    year, and of the bounds of the day offset. *)
Definition month_block_ok (l : bool) (m d : Z) : bool :=
  if d <=? dim_l l m then
    let t := dbm_l l m + d - 1 in
    let '(m', d') := ord_to_ymd_month (rep_year l) l t in
    (m' =? m) && (d' =? d) && (0 <=? t) && (t <=? 364 + leap_int l)
    && (negb (t =? 364 + leap_int l) || ((m =? 12) && (d =? 31)))
  else true.

Definition ord3 (ymd : Z * Z * Z) : Z := let '(y, m, d) := ymd in ymd_to_ord y m d.

(** A calendar date from year 1 on (no upper bound). *)
Definition cal_date (ymd : Z * Z * Z) : Prop :=
  let '(y, m, d) := ymd in 1 <= y /\ 1 <= m <= 12 /\ 1 <= d <= days_in_month y m.

Definition month_step_ok (l : bool) (m : Z) : bool :=
  dbm_l l (m + 1) =? dbm_l l m + dim_l l m.

End CalAux.

(** ** Facts about the calendar routines *)
Module CalFacts.
Import Cal CalAux.

Lemma all_range_spec f k : forall lo, all_range f lo k = true ->
  forall i, lo <= i < lo + Z.of_nat k -> f i = true.
Proof.
  induction k as [|k IH]; intros lo H i Hi; simpl in *; [lia|].
  apply andb_true_iff in H as [H1 H2].
  destruct (Z.eq_dec i lo) as [->|Hne]; [exact H1|].
  apply (IH (lo + 1)); [exact H2 | lia].
Qed.

Lemma days_in_month_l y m : days_in_month y m = dim_l (is_leap y) m.
Proof. reflexivity. Qed.
Lemma days_before_month_l y m : days_before_month y m = dbm_l (is_leap y) m.
Proof. reflexivity. Qed.

Lemma ord_to_ymd_month_l y y' l n : is_leap y = is_leap y' ->
  ord_to_ymd_month y l n = ord_to_ymd_month y' l n.
Proof. intros H. unfold ord_to_ymd_month, days_in_month. now rewrite H. Qed.

Lemma is_leap_rep l : is_leap (rep_year l) = l.
Proof. now destruct l. Qed.

Lemma month_block_check : forall l,
  all_range (fun m => all_range (month_block_ok l m) 1 31) 1 12 = true.
Proof. intros []; vm_compute; reflexivity. Qed.

Lemma month_block l m d : 1 <= m <= 12 -> 1 <= d <= dim_l l m ->
  month_block_ok l m d = true.
Proof.
  intros Hm Hd.
  assert (Hd31 : dim_l l m <= 31)
    by (unfold dim_l; destruct ((m =? 2) && l);
        [lia | assert (m = 1 \/ m = 2 \/ m = 3 \/ m = 4 \/ m = 5 \/ m = 6 \/ m = 7
                      \/ m = 8 \/ m = 9 \/ m = 10 \/ m = 11 \/ m = 12) as Hc by lia;
               repeat (destruct Hc as [-> | Hc]; [simpl; lia|]); subst; simpl; lia]).
  assert (H : (fun m => all_range (month_block_ok l m) 1 31) m = true)
    by (apply (all_range_spec _ 12 1 (month_block_check l)); simpl; lia).
  apply (all_range_spec _ _ _ H d). simpl. lia.
Qed.

Lemma month_block_facts y m d : 1 <= m <= 12 -> 1 <= d <= days_in_month y m ->
  let t := days_before_month y m + d - 1 in
  ord_to_ymd_month y (is_leap y) t = (m, d) /\ 0 <= t <= 364 + leap_int (is_leap y)
  /\ (t = 364 + leap_int (is_leap y) -> m = 12 /\ d = 31).
Proof.
  intros Hm Hd t. rewrite days_in_month_l in Hd.
  pose proof (month_block (is_leap y) m d Hm Hd) as H.
  unfold month_block_ok in H. rewrite (proj2 (Z.leb_le _ _) (proj2 Hd)) in H.
  subst t. rewrite days_before_month_l.
  rewrite (ord_to_ymd_month_l y (rep_year (is_leap y))) by now rewrite is_leap_rep.
  destruct (ord_to_ymd_month _ _ _) as [m' d'].
  repeat rewrite andb_true_iff in H. destruct H as [[[[H1 H2] H3] H4] H5].
  apply Z.eqb_eq in H1, H2. apply Z.leb_le in H3, H4. subst.
  repeat split; try lia.
Qed.

Lemma is_leap_decomp a b c e : 0 <= a -> 0 <= b < 4 -> 0 <= c < 25 -> 0 <= e < 4 ->
  is_leap (400 * a + 100 * b + 4 * c + e + 1) = (e =? 3) && (negb (c =? 24) || (b =? 3)).
Proof.
  intros. unfold is_leap.
  set (y := 400 * a + 100 * b + 4 * c + e + 1).
  assert (H4 : y mod 4 = 0 <-> e = 3) by (subst y; Z.div_mod_to_equations; lia).
  assert (H100 : y mod 100 = 0 <-> e = 3 /\ c = 24)
    by (subst y; Z.div_mod_to_equations; lia).
  assert (H400 : y mod 400 = 0 <-> e = 3 /\ c = 24 /\ b = 3)
    by (subst y; Z.div_mod_to_equations; lia).
  destruct (Z.eqb_spec (y mod 4) 0), (Z.eqb_spec (y mod 100) 0),
    (Z.eqb_spec (y mod 400) 0), (Z.eqb_spec e 3), (Z.eqb_spec c 24),
    (Z.eqb_spec b 3); simpl; tauto.
Qed.

Lemma days_before_year_decomp a b c e : 0 <= b < 4 -> 0 <= c < 25 -> 0 <= e < 4 ->
  days_before_year (400 * a + 100 * b + 4 * c + e + 1)
  = 146097 * a + 36524 * b + 1461 * c + 365 * e.
Proof. intros. unfold days_before_year. Z.div_mod_to_equations. lia. Qed.

Lemma ord_to_ymd_to_ord y m d : 1 <= y -> 1 <= m <= 12 -> 1 <= d <= days_in_month y m ->
  ord_to_ymd (ymd_to_ord y m d) = (y, m, d).
Proof.
  intros Hy Hm Hd.
  set (a := (y - 1) / 400). set (b := ((y - 1) mod 400) / 100).
  set (c := ((y - 1) mod 100) / 4). set (e := (y - 1) mod 4).
  assert (Hdec : y = 400 * a + 100 * b + 4 * c + e + 1
                 /\ 0 <= a /\ 0 <= b < 4 /\ 0 <= c < 25 /\ 0 <= e < 4)
    by (subst a b c e; Z.div_mod_to_equations; lia).
  clearbody a b c e. destruct Hdec as (Hyd & Ha & Hb & Hc & He).
  destruct (month_block_facts y m d Hm Hd) as (Hmb & Ht & Hend).
  set (t := days_before_month y m + d - 1) in *.
  assert (Hl : is_leap y = (e =? 3) && (negb (c =? 24) || (b =? 3)))
    by (rewrite Hyd; apply is_leap_decomp; lia).
  assert (Ho : ymd_to_ord y m d - 1 = 146097 * a + 36524 * b + 1461 * c + 365 * e + t).
  { unfold ymd_to_ord, t. rewrite Hyd at 1. rewrite days_before_year_decomp by lia. lia. }
  unfold ord_to_ymd. rewrite Ho. unfold DI400Y, DI100Y, DI4Y.
  assert (Ht' : t <= 364 \/ (t = 365 /\ e = 3 /\ (c <> 24 \/ b = 3) /\ m = 12 /\ d = 31)).
  { unfold leap_int in Ht, Hend. rewrite Hl in Ht, Hend.
    destruct (Z.eqb_spec e 3), (Z.eqb_spec c 24), (Z.eqb_spec b 3); simpl in Ht, Hend;
      try lia; destruct (Z.eq_dec t 365) as [E|E]; try lia;
      destruct (Hend E); right; repeat split; auto; lia. }
  assert (E1 : (146097 * a + 36524 * b + 1461 * c + 365 * e + t) / 146097 = a)
    by (Z.div_mod_to_equations; lia).
  assert (E2 : (146097 * a + 36524 * b + 1461 * c + 365 * e + t) mod 146097
               = 36524 * b + 1461 * c + 365 * e + t)
    by (Z.div_mod_to_equations; lia).
  rewrite E1, E2. clear E1 E2. clearbody t.
  destruct Ht' as [Ht' | (Ht' & -> & Hcb & -> & ->)].
  - assert (E3 : (36524 * b + 1461 * c + 365 * e + t) / 36524 = b)
      by (Z.div_mod_to_equations; lia).
    assert (E4 : (36524 * b + 1461 * c + 365 * e + t) mod 36524 = 1461 * c + 365 * e + t)
      by (Z.div_mod_to_equations; lia).
    assert (E5 : (1461 * c + 365 * e + t) / 1461 = c) by (Z.div_mod_to_equations; lia).
    assert (E6 : (1461 * c + 365 * e + t) mod 1461 = 365 * e + t)
      by (Z.div_mod_to_equations; lia).
    assert (E7 : (365 * e + t) / 365 = e) by (Z.div_mod_to_equations; lia).
    assert (E8 : (365 * e + t) mod 365 = t) by (Z.div_mod_to_equations; lia).
    rewrite E3, E4, E5, E6, E7, E8.
    replace (a * 400 + 1 + b * 100 + c * 4 + e) with y by lia.
    assert (Hn : (e =? 4) || (b =? 4) = false)
      by (apply orb_false_iff; split; apply Z.eqb_neq; lia).
    rewrite Hn, <- Hl, Hmb. reflexivity.
  - subst t. destruct (Z.eq_dec c 24) as [-> | Hc24].
    + assert (b = 3) as -> by lia.
      match goal with |- (if ?cnd then _ else _) = _ => replace cnd with true by reflexivity end.
      f_equal. f_equal. rewrite Hyd. Z.div_mod_to_equations. lia.
    + assert (E3 : (36524 * b + 1461 * c + 365 * 3 + 365) / 36524 = b)
        by (Z.div_mod_to_equations; lia).
      assert (E4 : (36524 * b + 1461 * c + 365 * 3 + 365) mod 36524 = 1461 * c + 1460)
        by (Z.div_mod_to_equations; lia).
      assert (E5 : (1461 * c + 1460) / 1461 = c) by (Z.div_mod_to_equations; lia).
      assert (E6 : (1461 * c + 1460) mod 1461 = 1460) by (Z.div_mod_to_equations; lia).
      rewrite E3, E4, E5, E6.
      match goal with |- (if ?cnd then _ else _) = _ => replace cnd with true by reflexivity end.
      f_equal. f_equal. change (1460 / 365) with 4. lia.
Qed.

Lemma month_step_check : forall l, all_range (month_step_ok l) 1 11 = true.
Proof. intros []; vm_compute; reflexivity. Qed.

Lemma days_before_month_succ y m : 1 <= m <= 11 ->
  days_before_month y (m + 1) = days_before_month y m + days_in_month y m.
Proof.
  intros Hm. rewrite !days_before_month_l, days_in_month_l.
  apply Z.eqb_eq, (all_range_spec _ _ _ (month_step_check (is_leap y))). simpl. lia.
Qed.

Lemma days_in_month_pos y m : 1 <= m <= 12 -> 28 <= days_in_month y m <= 31.
Proof.
  intros Hm. rewrite days_in_month_l. unfold dim_l.
  destruct (Z.eqb_spec m 2), (is_leap y); simpl; try lia;
  assert (m = 1 \/ m = 2 \/ m = 3 \/ m = 4 \/ m = 5 \/ m = 6 \/ m = 7
          \/ m = 8 \/ m = 9 \/ m = 10 \/ m = 11 \/ m = 12) as Hc by lia;
  repeat (destruct Hc as [-> | Hc]; [simpl; lia|]); subst; simpl; lia.
Qed.

Lemma days_before_month_12 y :
  days_before_month y 12 + days_in_month y 12 = 365 + leap_int (is_leap y).
Proof. rewrite days_before_month_l, days_in_month_l. now destruct (is_leap y). Qed.

Lemma days_before_month_1 y : days_before_month y 1 = 0.
Proof. rewrite days_before_month_l. now destruct (is_leap y). Qed.

Lemma days_before_year_succ y : 1 <= y ->
  days_before_year (y + 1) = days_before_year y + 365 + leap_int (is_leap y).
Proof.
  intros Hy. unfold days_before_year, leap_int, is_leap.
  replace (y + 1 - 1) with y by lia.
  destruct (Z.eqb_spec (y mod 4) 0), (Z.eqb_spec (y mod 100) 0),
    (Z.eqb_spec (y mod 400) 0); simpl; Z.div_mod_to_equations; lia.
Qed.

Lemma ord3_next x : cal_date x -> ord3 (next_day x) = ord3 x + 1.
Proof.
  destruct x as [[y m] d]. intros (Hy & Hm & Hd). unfold next_day.
  destruct (Z.ltb_spec d (days_in_month y m)).
  - simpl. unfold ymd_to_ord. lia.
  - assert (d = days_in_month y m) as -> by lia.
    destruct (Z.ltb_spec m 12).
    + simpl. unfold ymd_to_ord. rewrite days_before_month_succ by lia. lia.
    + assert (m = 12) as -> by lia. simpl. unfold ymd_to_ord.
      rewrite days_before_year_succ, days_before_month_1 by lia.
      pose proof (days_before_month_12 y). lia.
Qed.

Lemma next_day_cal x : cal_date x -> cal_date (next_day x).
Proof.
  destruct x as [[y m] d]. intros (Hy & Hm & Hd). unfold next_day.
  destruct (Z.ltb_spec d (days_in_month y m)).
  - simpl. lia.
  - destruct (Z.ltb_spec m 12); simpl;
      [pose proof (days_in_month_pos y (m + 1)) | pose proof (days_in_month_pos (y + 1) 1)];
      lia.
Qed.

Lemma add_days_spec_succ k x : add_days_spec (S k) x = next_day (add_days_spec k x).
Proof. revert x; induction k as [|k IH]; intros x; [reflexivity|]. simpl in *. apply IH. Qed.

Lemma add_days_spec_cal k x : cal_date x -> cal_date (add_days_spec k x).
Proof.
  revert x; induction k as [|k IH]; intros x Hx; [exact Hx|]. apply IH, next_day_cal, Hx.
Qed.

Lemma ord3_add_days_spec k x : cal_date x -> ord3 (add_days_spec k x) = ord3 x + Z.of_nat k.
Proof.
  revert x; induction k as [|k IH]; intros x Hx; [simpl; lia|].
  simpl. rewrite IH by now apply next_day_cal. rewrite ord3_next by exact Hx. lia.
Qed.

Lemma ord_to_ymd_ord3 x : cal_date x -> ord_to_ymd (ord3 x) = x.
Proof. destruct x as [[y m] d]. intros (Hy & Hm & Hd). now apply ord_to_ymd_to_ord. Qed.

(** Counting [k] days on the ordinal scale is the same as taking [k]
    successive next days. *)
Lemma ord_to_ymd_add k x : cal_date x ->
  ord_to_ymd (ord3 x + Z.of_nat k) = add_days_spec k x.
Proof.
  intros Hx. rewrite <- ord3_add_days_spec by exact Hx.
  apply ord_to_ymd_ord3, add_days_spec_cal, Hx.
Qed.

Lemma ord3_max x : cal_date x ->
  (ord3 x <= MAXORDINAL <-> fst (fst x) <= MAXYEAR).
Proof.
  destruct x as [[y m] d]. intros (Hy & Hm & Hd). simpl. unfold MAXORDINAL, MAXYEAR.
  destruct (month_block_facts y m d Hm Hd) as (_ & Ht & _).
  pose proof (days_before_year_succ y Hy) as Hs.
  unfold ymd_to_ord. split; intros H.
  - destruct (Z.le_gt_cases y 9999) as [|Hgt]; [assumption|].
    exfalso. assert (days_before_year y >= 3652059); [|lia].
    unfold days_before_year. Z.div_mod_to_equations. lia.
  - assert (days_before_year (y + 1) <= 3652059); [|lia].
    unfold days_before_year. Z.div_mod_to_equations. lia.
Qed.

Lemma add_days_within k : forall y m d, d + Z.of_nat k <= days_in_month y m ->
  add_days_spec k (y, m, d) = (y, m, d + Z.of_nat k).
Proof.
  induction k as [|k IH]; intros y m d H.
  - simpl. f_equal. lia.
  - change (add_days_spec (S k) (y, m, d)) with (add_days_spec k (next_day (y, m, d))).
    unfold next_day at 1. destruct (Z.ltb_spec d (days_in_month y m)); [|lia].
    rewrite IH by lia. f_equal. lia.
Qed.

(** [datetime + timedelta(days=k)] for [k >= 0] gives the date [k] days
    later, or [OverflowError] when that date is past year 9999. *)
Lemma add_days_correct y m d k : valid_date y m d = true ->
  add_days (y, m, d) (Z.of_nat k) =
  let r := add_days_spec k (y, m, d) in
  if fst (fst r) <=? MAXYEAR then COk r else COverflow.
Proof.
  unfold valid_date, MINYEAR, MAXYEAR. intros Hv.
  repeat rewrite andb_true_iff in Hv. rewrite !Z.leb_le in Hv.
  destruct Hv as (((((Hy1 & Hy2) & Hm1) & Hm2) & Hd1) & Hd2).
  assert (Hx : cal_date (y, m, d)) by (simpl; lia).
  pose proof (days_in_month_pos y m ltac:(lia)) as Hdim.
  unfold add_days, normalize_y_m_d, MINYEAR, MAXYEAR.
  set (dim := days_in_month y m) in *.
  destruct (Z.le_gt_cases (d + Z.of_nat k) dim) as [Hin | Hout].
  - replace ((d + Z.of_nat k <? 1) || (d + Z.of_nat k >? dim)) with false
      by (symmetry; apply orb_false_iff; split; [apply Z.ltb_ge | rewrite Z.gtb_ltb; apply Z.ltb_ge]; lia).
    rewrite add_days_within by exact Hin. simpl.
    replace ((1 <=? y) && (y <=? 9999)) with true
      by (symmetry; apply andb_true_iff; split; apply Z.leb_le; lia).
    replace (y <=? 9999) with true by (symmetry; apply Z.leb_le; lia). reflexivity.
  - replace ((d + Z.of_nat k <? 1) || (d + Z.of_nat k >? dim)) with true
      by (symmetry; apply orb_true_iff; right; rewrite Z.gtb_ltb; apply Z.ltb_lt; lia).
    replace (d + Z.of_nat k =? 0) with false by (symmetry; apply Z.eqb_neq; lia).
    destruct (Z.eqb_spec (d + Z.of_nat k) (dim + 1)) as [Hedge | Hedge].
    + destruct k as [|k]; [lia|].
      rewrite add_days_spec_succ, add_days_within by lia.
      unfold next_day. replace (d + Z.of_nat k) with dim by lia.
      rewrite Z.ltb_irrefl.
      destruct (Z.ltb_spec m 12); destruct (Z.gtb_spec (m + 1) 12); try lia; simpl.
      * replace ((1 <=? y) && (y <=? 9999)) with true
          by (symmetry; apply andb_true_iff; split; apply Z.leb_le; lia).
        replace (y <=? 9999) with true by (symmetry; apply Z.leb_le; lia). reflexivity.
      * replace (1 <=? y + 1) with true by (symmetry; apply Z.leb_le; lia).
        reflexivity.
    + assert (Hord : ymd_to_ord y m 1 + (d + Z.of_nat k) - 1 = ord3 (y, m, d) + Z.of_nat k)
        by (simpl; unfold ymd_to_ord; lia).
      rewrite Hord.
      assert (Hr := add_days_spec_cal k _ Hx).
      pose proof (ord3_add_days_spec k _ Hx) as Ho.
      pose proof (ord3_max _ Hr) as Hmax. unfold MAXORDINAL, MAXYEAR in Hmax.
      replace (ord3 (y, m, d) + Z.of_nat k <? 1) with false.
      2:{ symmetry. apply Z.ltb_ge. simpl. unfold ymd_to_ord.
          destruct (month_block_facts y m d ltac:(lia) ltac:(lia)) as (_ & Ht & _).
          assert (0 <= days_before_year y)
            by (unfold days_before_year; Z.div_mod_to_equations; lia).
          lia. }
      simpl orb. unfold MAXORDINAL. change (ymd_to_ord y m d) with (ord3 (y, m, d)).
      destruct (Z.gtb_spec (ord3 (y, m, d) + Z.of_nat k) 3652059);
        destruct (Z.leb_spec (fst (fst (add_days_spec k (y, m, d)))) 9999);
        try lia; try reflexivity.
      f_equal. apply ord_to_ymd_add, Hx.
Qed.

End CalFacts.

(** ** What [strptime] accepts: the regex match of [%Y-%m-%d] *)
Module ParseFacts.
Import Cal Py App Spec.
Ltac bool_facts := repeat match goal with
 | H : (_ && _) = true |- _ => apply andb_true_iff in H; destruct H
 | H : (_ && _) = false |- _ => apply andb_false_iff in H; destruct H
 | H : (_ <=? _) = true |- _ => apply Z.leb_le in H
 | H : (_ <=? _) = false |- _ => apply Z.leb_gt in H
 | H : (_ =? _) = true |- _ => apply Z.eqb_eq in H
 | H : (_ =? _) = false |- _ => apply Z.eqb_neq in H
 | H : (_ <? _) = true |- _ => apply Z.ltb_lt in H
 | H : (_ <? _) = false |- _ => apply Z.ltb_ge in H
 end.

Ltac split_ifs := repeat (simpl; match goal with
 | |- context [if ?b then _ else _] => destruct b eqn:?
 end).

Section P.
Variable ud : Z -> option Z.

Ltac rng := unfold in_rng; rewrite andb_true_iff, !Z.leb_le; lia.

Lemma in_m_class p s c r :
  In (c, r) (m_class p s) -> exists x, s = x :: r /\ c = [x] /\ p x = true.
Proof.
  destruct s as [|x s]; simpl; [tauto|].
  destruct (p x) eqn:Hp; simpl; [|tauto].
  intros [H|[]]; inversion H; subst; eauto.
Qed.

Lemma in_m_seq m1 m2 s c r :
  In (c, r) (m_seq m1 m2 s) ->
  exists c1 r1 c2, In (c1, r1) (m1 s) /\ In (c2, r) (m2 r1) /\ c = c1 ++ c2.
Proof.
  unfold m_seq; intros H; apply in_flat_map in H as [[c1 r1] [H1 H2]].
  apply in_map_iff in H2 as [[c2 r2] [E H2]]; inversion E; subst; eauto 7.
Qed.

Lemma in_m_alt m1 m2 s x : In x (m_alt m1 m2 s) -> In x (m1 s) \/ In x (m2 s).
Proof. unfold m_alt; apply in_app_or. Qed.

Ltac unmatch := repeat match goal with
 | H : In _ (m_alt _ _ _) |- _ => apply in_m_alt in H; destruct H as [H|H]
 | H : In _ (m_seq _ _ _) |- _ =>
     let c1 := fresh "c" in let r1 := fresh "r" in let c2 := fresh "c" in
     let H1 := fresh "H" in let E := fresh "E" in
     apply in_m_seq in H; destruct H as (c1 & r1 & c2 & H1 & H & E); subst
 | H : In _ (m_lit _ _) |- _ => apply in_m_class in H; destruct H as (? & ? & ? & ?); subst
 | H : In _ (m_range _ _ _) |- _ => apply in_m_class in H; destruct H as (? & ? & ? & ?); subst
 | H : In _ (m_digit _ _) |- _ => apply in_m_class in H; destruct H as (? & ? & ? & ?); subst
 | H : In _ (m_class _ _) |- _ => apply in_m_class in H; destruct H as (? & ? & ? & ?); subst
 end.

Lemma re_Y_sound s c r : In (c, r) (re_Y ud s) -> s = c ++ r /\ year_text ud c.
Proof.
  unfold re_Y; intros H; unmatch; simpl; split; [reflexivity|].
  split; [reflexivity|]. unfold is_decimal; simpl.
  repeat match goal with H : _ = true |- _ => rewrite H; clear H end; reflexivity.
Qed.

Lemma re_m_sound s c r : In (c, r) (re_m s) -> s = c ++ r /\ month_text c.
Proof.
  unfold re_m; intros H; unmatch; simpl; split; try reflexivity; unfold month_text;
  bool_facts; subst.
  - right; right; eexists; split; [reflexivity|]; rng.
  - right; left; eexists; split; [reflexivity|]; rng.
  - left; eexists; split; [reflexivity|]; rng.
Qed.

Lemma re_d_sound s c r : In (c, r) (re_d ud s) -> s = c ++ r /\ day_text ud c.
Proof.
  unfold re_d; intros H; unmatch; simpl; split; try reflexivity; unfold day_text;
  bool_facts; subst.
  - do 4 right; eexists; split; [reflexivity|]; rng.
  - do 3 right; left; do 2 eexists; split; [reflexivity|]; split; [rng|].
    unfold is_decimal; now rewrite H1.
  - do 2 right; left; eexists; split; [reflexivity|]; rng.
  - left; eexists; split; [reflexivity|]; rng.
  - right; left; eexists; split; [reflexivity|]; rng.
Qed.

Lemma re_Y_year c r : year_text ud c -> re_Y ud (c ++ r) = [(c, r)].
Proof.
  intros [Hl Hd].
  destruct c as [|a [|b [|c [|d [|? ?]]]]]; try discriminate Hl.
  simpl in Hd; unfold is_decimal in Hd; bool_facts.
  unfold re_Y, m_seq, m_digit, m_class; simpl.
  rewrite H; simpl; rewrite H0; simpl; rewrite H1; simpl; rewrite H2; reflexivity.
Qed.

Lemma re_m_first c r :
  month_text c -> exists tl, re_m (c ++ 45 :: r) = (c, 45 :: r) :: tl.
Proof.
  unfold month_text, in_rng; intros [(a & -> & Ha)|[(b & -> & Hb)|(b & -> & Hb)]];
  unfold re_m, m_alt, m_seq, m_lit, m_range, m_class; bool_facts; split_ifs;
  bool_facts; try lia; eexists; reflexivity.
Qed.

Lemma re_d_first c :
  day_text ud c -> exists tl, re_d ud c = (c, []) :: tl.
Proof.
  unfold day_text, is_decimal, in_rng;
  intros [(a & -> & Ha)|[(a & -> & Ha)|[(b & -> & Hb)|[(a & b & -> & Ha & Hb)|(b & -> & Hb)]]]];
  unfold re_d, m_alt, m_seq, m_lit, m_range, m_digit, m_class; bool_facts;
  try rewrite Hb; split_ifs; bool_facts; try lia; eexists; reflexivity.
Qed.

Lemma format_regex_first ys ms ds :
  year_text ud ys -> month_text ms -> day_text ud ds ->
  format_regex_match ud (ys ++ [45] ++ ms ++ [45] ++ ds) = Some (ys, ms, ds, []).
Proof.
  intros Hy Hm Hd; unfold format_regex_match.
  rewrite (re_Y_year _ _ Hy).
  destruct (re_m_first _ ds Hm) as [tl Em].
  destruct (re_d_first _ Hd) as [tl' Ed].
  cbn [flat_map app m_lit m_class Z.eqb Pos.eqb].
  rewrite Em; cbn [flat_map app m_lit m_class Z.eqb Pos.eqb].
  rewrite Ed; reflexivity.
Qed.

Lemma format_regex_sound s ys ms ds rest :
  format_regex_match ud s = Some (ys, ms, ds, rest) ->
  s = ys ++ [45] ++ ms ++ [45] ++ ds ++ rest
  /\ year_text ud ys /\ month_text ms /\ day_text ud ds.
Proof.
  unfold format_regex_match.
  match goal with |- hd_error ?L = _ -> _ => destruct L as [|x l] eqn:E end;
    [discriminate|].
  intros [= ->].
  assert (Hin : In (ys, ms, ds, rest) ((ys, ms, ds, rest) :: l)) by now left.
  rewrite <- E in Hin; clear E.
  apply in_flat_map in Hin as [[y1 r1] [Hy Hin]].
  apply in_flat_map in Hin as [[l1 r2] [Hl1 Hin]].
  apply in_flat_map in Hin as [[m1 r3] [Hm Hin]].
  apply in_flat_map in Hin as [[l2 r4] [Hl2 Hin]].
  apply in_map_iff in Hin as [[d1 r5] [Eq Hd]]; inversion Eq; subst.
  apply re_Y_sound in Hy as [-> Hy].
  apply in_m_class in Hl1 as (? & -> & -> & Hx1).
  apply re_m_sound in Hm as [-> Hm].
  apply in_m_class in Hl2 as (? & -> & -> & Hx2).
  apply re_d_sound in Hd as [-> Hd].
  apply Z.eqb_eq in Hx1, Hx2; subst.
  split; [reflexivity | tauto].
Qed.

Lemma strptime_Ret s r :
  strptime ud s = Ret r <->
  exists ys ms ds,
    s = ys ++ [45] ++ ms ++ [45] ++ ds
    /\ year_text ud ys /\ month_text ms /\ day_text ud ds
    /\ valid_date (py_int ud ys) (py_int ud ms) (py_int ud ds) = true
    /\ r = (py_int ud ys, py_int ud ms, py_int ud ds).
Proof.
  split.
  - unfold strptime.
    destruct (format_regex_match ud s) as [[[[ys ms] ds] rest]|] eqn:E; [|discriminate].
    destruct rest as [|? ?]; [|discriminate].
    destruct (valid_date _ _ _) eqn:V; [|discriminate].
    intros [= <-].
    apply format_regex_sound in E as (-> & Hy & Hm & Hd).
    rewrite app_nil_r.
    exists ys, ms, ds; auto 7.
  - intros (ys & ms & ds & -> & Hy & Hm & Hd & V & ->).
    unfold strptime; rewrite format_regex_first by assumption.
    cbv zeta; rewrite V; reflexivity.
Qed.

Lemma accepted_strptime s : accepted_date ud s <-> exists r, strptime ud s = Ret r.
Proof.
  split.
  - intros (ys & ms & ds & E & Hy & Hm & Hd & V).
    eexists; apply strptime_Ret; exists ys, ms, ds; auto 7.
  - intros [r Hr]; apply strptime_Ret in Hr as (ys & ms & ds & E & Hy & Hm & Hd & V & _).
    exists ys, ms, ds; auto 7.
Qed.

Lemma strptime_Raise s e : strptime ud s = Raise e -> is_value_error e = true.
Proof.
  unfold strptime.
  destruct (format_regex_match ud s) as [[[[ys ms] ds] rest]|];
    [destruct rest; [destruct (valid_date _ _ _)|]|]; intros [= <-]; reflexivity.
Qed.
End P.

End ParseFacts.

(** ** Rounding to cents in binary64 *)
Module FloatFacts.
Import Cal Py App Spec ParseFacts.
Lemma digits2_log2 p : Zpos (digits2_pos p) = Z.log2 (Zpos p) + 1.
Proof.
  induction p as [p IH|p IH|]; cbn [digits2_pos]; try reflexivity;
    rewrite Pos2Z.inj_succ, IH.
  - change (Zpos p~1) with (2 * Zpos p + 1). rewrite Z.log2_succ_double by lia. lia.
  - change (Zpos p~0) with (2 * Zpos p). rewrite Z.log2_double by lia. lia.
Qed.

Lemma Zdigits2_pos z : 0 < z -> Zdigits2 z = Z.log2 z + 1.
Proof. destruct z; try lia. intros _. apply digits2_log2. Qed.

Lemma Zdigits2_mono a b : 0 <= a <= b -> Zdigits2 a <= Zdigits2 b.
Proof.
  intros H. destruct (Z.eq_dec a 0) as [->|Ha].
  - destruct b; simpl; lia.
  - rewrite !Zdigits2_pos by lia. pose proof (Z.log2_le_mono a b). lia.
Qed.

Lemma Zdigits2_succ a : 0 <= a -> Zdigits2 (a + 1) <= Zdigits2 a + 1.
Proof.
  intros H. destruct (Z.eq_dec a 0) as [->|Ha]; [reflexivity|].
  rewrite !Zdigits2_pos by lia. pose proof (Z.log2_succ_le a). unfold Z.succ in *. lia.
Qed.

Lemma Zdigits2_lt_pow2 a n : 0 <= a < 2 ^ n -> 0 <= n -> Zdigits2 a <= n.
Proof.
  intros H Hn. destruct (Z.eq_dec a 0) as [->|Ha]; [simpl; lia|].
  rewrite Zdigits2_pos by lia. pose proof (Z.log2_lt_pow2 a n ltac:(lia)). lia.
Qed.

Lemma Zdigits2_mul_pow2 m j : 0 < m -> 0 <= j -> Zdigits2 (m * 2 ^ j) = Zdigits2 m + j.
Proof.
  intros Hm Hj. assert (0 < 2 ^ j) by (apply Z.pow_pos_nonneg; lia).
  rewrite !Zdigits2_pos by nia. rewrite Z.log2_mul_pow2 by lia. lia.
Qed.

Lemma iter_pos_inv {A} (P : A -> Prop) (f : A -> A) :
  (forall x, P x -> P (f x)) -> forall p x, P x -> P (iter_pos f p x).
Proof. intros Hf p; induction p; simpl; auto. Qed.

Lemma shr_1_bound M x : 0 <= shr_m x <= M -> 0 <= shr_m (shr_1 x) <= M.
Proof. destruct x as [m r s]; destruct m as [|[p|p|]|p]; simpl; lia. Qed.

Lemma shr_fexp_bound m e l : 0 <= m ->
  let '(mrs', e') := shr_fexp prec emax m e l in
  0 <= shr_m mrs' <= m /\ e' = Z.max e (fexp prec emax (Zdigits2 m + e)).
Proof.
  intros Hm. unfold shr_fexp, shr.
  assert (Hr : shr_m (shr_record_of_loc m l) = m) by (destruct l as [|[]]; reflexivity).
  destruct (fexp prec emax (Zdigits2 m + e) - e) as [|p|p] eqn:E.
  - rewrite Hr. lia.
  - split; [|lia]. apply (iter_pos_inv (fun x => 0 <= shr_m x <= m)).
    + intros x; apply shr_1_bound.
    + lia.
  - rewrite Hr. lia.
Qed.

Lemma round_nearest_even_bound m l : m <= round_nearest_even m l <= m + 1.
Proof. destruct l as [|[]]; simpl; try destruct (Z.even m); lia. Qed.

(** Rounding a moderate value never overflows nor gives a NaN. *)
Lemma round_aux_finite sx mx ex lx : 0 <= mx -> Zdigits2 mx <= 200 -> -200 <= ex <= 200 ->
  is_finite (binary_round_aux prec emax sx mx ex lx) = true.
Proof.
  intros Hm Hd He. unfold binary_round_aux.
  pose proof (shr_fexp_bound mx ex lx Hm) as B1.
  destruct (shr_fexp prec emax mx ex lx) as [mrs' e'] eqn:E1.
  destruct B1 as [Hb1 He1].
  set (m1 := round_nearest_even (shr_m mrs') (loc_of_shr_record mrs')).
  assert (Hm1 : 0 <= m1 <= mx + 1)
    by (pose proof (round_nearest_even_bound (shr_m mrs') (loc_of_shr_record mrs')); lia).
  pose proof (shr_fexp_bound m1 e' loc_Exact ltac:(lia)) as B2.
  destruct (shr_fexp prec emax m1 e' loc_Exact) as [mrs'' e''] eqn:E2.
  destruct B2 as [Hb2 He2].
  assert (Zdigits2 m1 <= 201)
    by (pose proof (Zdigits2_mono m1 (mx + 1) ltac:(lia)); pose proof (Zdigits2_succ mx Hm); lia).
  unfold fexp, emin, prec, emax in He1, He2.
  destruct (shr_m mrs'') as [|p|p] eqn:Em; [reflexivity| |lia].
  replace (e'' <=? emax - prec) with true by (symmetry; apply Z.leb_le; unfold emax, prec; lia).
  reflexivity.
Qed.

Lemma SFdiv_cents_finite kp : Zpos kp < 2 ^ 61 ->
  is_finite (SFdiv prec emax (S754_finite false kp 0) (S754_finite false 100 0)) = true.
Proof.
  intros Hk. unfold SFdiv, SFdiv_core_binary.
  assert (Hd1 : 1 <= Zdigits2 (Zpos kp) <= 61).
  { split; [simpl; lia|]. apply Zdigits2_lt_pow2; lia. }
  change (Zdigits2 (Zpos 100)) with 7.
  set (d1 := Zdigits2 (Zpos kp)) in *.
  set (e' := Z.min (fexp prec emax (d1 + 0 - (7 + 0))) (0 - 0)).
  assert (He' : -59 <= e' <= 0) by (subst e'; unfold fexp, emin, prec, emax; lia).
  set (m' := match 0 - 0 - e' with Zpos _ => Z.shiftl (Zpos kp) (0 - 0 - e') | Z0 => Zpos kp | Zneg _ => 0 end).
  assert (Hm' : 0 <= m' < 2 ^ 120).
  { subst m'. destruct (0 - 0 - e') as [|p|p] eqn:Es.
    - split; [lia|]. apply Z.lt_trans with (2 ^ 61); [lia|]. apply Z.pow_lt_mono_r; lia.
    - rewrite Z.shiftl_mul_pow2 by lia.
      assert (0 < 2 ^ Zpos p <= 2 ^ 59) by (split; [apply Z.pow_pos_nonneg; lia | apply Z.pow_le_mono_r; lia]).
      change (2 ^ 120) with (2 ^ 61 * 2 ^ 59). nia.
    - lia. }
  destruct (Z.div_eucl m' 100) as [q r] eqn:Ed.
  assert (Hq : q = m' / 100) by (unfold Z.div; rewrite Ed; reflexivity).
  apply round_aux_finite; [| |lia].
  - subst q. apply Z.div_pos; lia.
  - apply Zdigits2_lt_pow2; [|lia]. subst q. split; [apply Z.div_pos; lia|].
    apply Z.le_lt_trans with m'; [apply Z.div_le_upper_bound; lia|].
    apply Z.lt_trans with (2 ^ 120); [lia|]. apply Z.pow_lt_mono_r; lia.
Qed.

Lemma shr_1_double y : 0 <= y ->
  shr_1 {| shr_m := 2 * y; shr_r := false; shr_s := false |} = {| shr_m := y; shr_r := false; shr_s := false |}.
Proof. destruct y as [|q|q]; intros H; try lia; reflexivity. Qed.

Lemma iter_shr_exact p : forall m, 0 <= m ->
  iter_pos shr_1 p {| shr_m := m * 2 ^ Zpos p; shr_r := false; shr_s := false |}
  = {| shr_m := m; shr_r := false; shr_s := false |}.
Proof.
  induction p as [p IH|p IH|]; intros m Hm; cbn [iter_pos].
  - assert (H2 : 0 < 2 ^ Zpos p) by (apply Z.pow_pos_nonneg; lia).
    replace (m * 2 ^ Zpos p~1) with (2 * (m * 2 ^ Zpos p * 2 ^ Zpos p))
      by (replace (Zpos p~1) with (Zpos p + Zpos p + 1) by lia;
          rewrite !Z.pow_add_r by lia; ring).
    rewrite shr_1_double by nia. rewrite IH by nia. apply IH; lia.
  - assert (H2 : 0 < 2 ^ Zpos p) by (apply Z.pow_pos_nonneg; lia).
    replace (m * 2 ^ Zpos p~0) with (m * 2 ^ Zpos p * 2 ^ Zpos p)
      by (replace (Zpos p~0) with (Zpos p + Zpos p) by lia;
          rewrite !Z.pow_add_r by lia; ring).
    rewrite IH by nia. apply IH; lia.
  - replace (m * 2 ^ 1) with (2 * m) by ring. apply shr_1_double, Hm.
Qed.

Lemma round_aux_exact sx m e j :
  fexp prec emax (Zdigits2 (Zpos m) + e) = e -> e <= emax - prec -> 0 <= j ->
  binary_round_aux prec emax sx (Zpos m * 2 ^ j) (e - j) loc_Exact = S754_finite sx m e.
Proof.
  intros Hc He Hj. unfold binary_round_aux, shr_fexp.
  cbn [shr_record_of_loc].
  rewrite Zdigits2_mul_pow2 by lia.
  replace (Zdigits2 (Zpos m) + j + (e - j)) with (Zdigits2 (Zpos m) + e) by ring.
  rewrite Hc. replace (e - (e - j)) with j by ring.
  assert (Hs : shr {| shr_m := Zpos m * 2 ^ j; shr_r := false; shr_s := false |} (e - j) j
               = ({| shr_m := Zpos m; shr_r := false; shr_s := false |}, e)).
  { unfold shr. destruct j as [|p|p]; try lia.
    - f_equal; [f_equal; ring | ring].
    - rewrite iter_shr_exact by lia. f_equal; ring. }
  rewrite Hs. cbn [shr_m loc_of_shr_record round_nearest_even shr_record_of_loc].
  rewrite Hc, Z.sub_diag. cbn [shr].
  replace (e <=? emax - prec) with true by (symmetry; apply Z.leb_le; lia).
  reflexivity.
Qed.

Lemma SFdiv_cents_exact kp m e :
  fexp prec emax (Zdigits2 (Zpos m) + e) = e -> 0 <= e <= emax - prec ->
  Zpos kp = Zpos m * 2 ^ e * 100 ->
  SFdiv prec emax (S754_finite false kp 0) (S754_finite false 100 0) = S754_finite false m e.
Proof.
  intros Hc He Hk. unfold SFdiv, SFdiv_core_binary.
  change (Zdigits2 (Zpos 100)) with 7.
  set (e' := Z.min (fexp prec emax (Zdigits2 (Zpos kp) + 0 - (7 + 0))) (0 - 0)).
  assert (He' : e' <= 0) by (subst e'; lia).
  assert (Hm' : match 0 - 0 - e' with Zpos _ => Z.shiftl (Zpos kp) (0 - 0 - e') | Z0 => Zpos kp | Zneg _ => 0 end
                = Zpos m * 2 ^ (e - e') * 100).
  { replace (e - e') with (e + (0 - 0 - e')) by ring.
    rewrite Z.pow_add_r by lia.
    destruct (0 - 0 - e') as [|p|p] eqn:Es.
    - rewrite Hk. simpl (2 ^ 0). ring.
    - rewrite Z.shiftl_mul_pow2 by lia. rewrite Hk. ring.
    - lia. }
  rewrite Hm'.
  assert (Hp : 0 < 2 ^ (e - e')) by (apply Z.pow_pos_nonneg; lia).
  replace (Z.div_eucl (Zpos m * 2 ^ (e - e') * 100) 100) with (Zpos m * 2 ^ (e - e'), 0).
  2:{ symmetry. pose proof (Z.div_eucl_eq (Zpos m * 2 ^ (e - e') * 100) 100 ltac:(lia)).
      pose proof (Z_mod_lt (Zpos m * 2 ^ (e - e') * 100) 100 ltac:(lia)).
      unfold Z.modulo, Z.div in *.
      destruct (Z.div_eucl (Zpos m * 2 ^ (e - e') * 100) 100) as [q r].
      assert (r = 0 /\ q = Zpos m * 2 ^ (e - e')) as [-> ->] by nia. reflexivity. }
  cbn [new_location Z.even new_location_even Z.eqb].
  replace e' with (e - (e - e')) at 2 by ring.
  apply round_aux_exact; [exact Hc | lia | lia].
Qed.

Lemma valid_finite_canonical s m e : valid_binary prec emax (S754_finite s m e) = true ->
  fexp prec emax (Zdigits2 (Zpos m) + e) = e /\ e <= emax - prec.
Proof.
  unfold valid_binary, bounded, canonical_mantissa. rewrite andb_true_iff, Z.eqb_eq, Z.leb_le.
  tauto.
Qed.

Lemma canonical_mantissa_lt m e : fexp prec emax (Zdigits2 (Zpos m) + e) = e -> Zpos m < 2 ^ 53.
Proof.
  intros Hc. unfold fexp, emin, prec, emax in Hc.
  rewrite Zdigits2_pos in Hc by lia.
  assert (Z.log2 (Zpos m) < 53) by lia.
  apply Z.log2_lt_cancel. rewrite Z.log2_pow2 by lia. exact H.
Qed.

Lemma round_half_even_div_spec num den : 0 < den ->
  let k := round_half_even_div num den in
  (2 * Z.abs (num - k * den) < den \/ (2 * Z.abs (num - k * den) = den /\ Z.even k = true))
  /\ num / den <= k <= num / den + 1.
Proof.
  intros Hd. unfold round_half_even_div.
  pose proof (Z.div_eucl_eq num den ltac:(lia)) as Hq.
  pose proof (Z_mod_lt num den ltac:(lia)) as Hr.
  unfold Z.modulo, Z.div in *.
  destruct (Z.div_eucl num den) as [q r].
  destruct (Z.compare_spec (2 * r) den).
  - destruct (Z.even q) eqn:Ev.
    + split; [right; split; [rewrite Hq; replace (den * q + r - q * den) with r by ring; lia | exact Ev] | lia].
    + split; [right; split|lia].
      * rewrite Hq. replace (den * q + r - (q + 1) * den) with (r - den) by ring. lia.
      * rewrite Z.even_add, Ev. reflexivity.
  - split; [left|lia]. rewrite Hq. replace (den * q + r - q * den) with r by ring. lia.
  - split; [left|lia]. rewrite Hq. replace (den * q + r - (q + 1) * den) with (r - den) by ring. lia.
Qed.

Lemma Q_cents_neg (n : Z) (D : positive) (k : Z) :
  (Qabs ((n # D) * 100 - inject_Z k) == (Z.abs (n * 100 - k * Zpos D) # D))%Q.
Proof.
  unfold Qeq, Qabs, Qminus, Qplus, Qopp, Qmult, inject_Z. cbn [Qnum Qden].
  rewrite !Pos.mul_1_r. f_equal. f_equal. ring.
Qed.

Lemma rounds_to_cents_frac (n : Z) (D : positive) (k : Z) :
  (2 * Z.abs (n * 100 - k * Zpos D) < Zpos D
   \/ (2 * Z.abs (n * 100 - k * Zpos D) = Zpos D /\ Z.even k = true)) ->
  rounds_to_cents (n # D) k.
Proof.
  unfold rounds_to_cents. rewrite !Q_cents_neg. unfold Qlt, Qeq; cbn [Qnum Qden].
  intros [H|[H Ev]]; [left | right; split; [|exact Ev]]; lia.
Qed.

Lemma rounds_to_cents_int (M : Z) : rounds_to_cents (inject_Z M) (M * 100).
Proof.
  left. rewrite inject_Z_mult.
  setoid_replace (inject_Z M * 100 - inject_Z M * inject_Z 100)%Q with 0%Q
    by (change (inject_Z 100) with 100%Q; ring).
  reflexivity.
Qed.

Lemma double_round_shape m e :
  float_round (S754_finite false m e) 2 =
  let k := if 0 <=? e then Zpos m * 2 ^ e * 100
           else round_half_even_div (Zpos m * 100) (2 ^ (- e)) in
  match nearest_cents k with
  | S754_infinity _ => Raise (OverflowError "rounded value too large to represent")
  | r => Ret r
  end.
Proof.
  unfold float_round, double_round. cbn [is_finite negb Z.of_nat Z.pow Z.ltb].
  change (10 ^ Z.of_nat 2) with 100. change (Z.to_pos 100) with 100%positive.
  cbv zeta. unfold nearest_cents.
  destruct (if 0 <=? e then _ else _); reflexivity.
Qed.

Lemma float_round_pos m e : exists k, 0 <= k
  /\ rounds_to_cents (float_Q (S754_finite false m e)) k
  /\ float_round (S754_finite false m e) 2 =
     match nearest_cents k with
     | S754_infinity _ => Raise (OverflowError "rounded value too large to represent")
     | r => Ret r
     end
  /\ (valid_binary prec emax (S754_finite false m e) = true -> is_finite (nearest_cents k) = true).
Proof.
  rewrite double_round_shape. cbv zeta. unfold float_Q.
  destruct (Z.leb_spec 0 e) as [He0|He0].
  - assert (Hp : 0 < 2 ^ e) by (apply Z.pow_pos_nonneg; lia).
    exists (Zpos m * 2 ^ e * 100). split; [nia|]. split; [apply rounds_to_cents_int|].
    split; [reflexivity|]. intros V. apply valid_finite_canonical in V as [Hc He].
    destruct (Zpos m * 2 ^ e * 100) as [|kp|kp] eqn:Ek; try nia.
    unfold nearest_cents. rewrite (SFdiv_cents_exact kp m e Hc ltac:(lia) (eq_sym Ek)).
    reflexivity.
  - assert (Hp : 0 < 2 ^ (- e)) by (apply Z.pow_pos_nonneg; lia).
    pose proof (round_half_even_div_spec (Zpos m * 100) (2 ^ (- e)) Hp) as [Hr Hb].
    set (k := round_half_even_div (Zpos m * 100) (2 ^ (- e))) in *.
    assert (Hq : 0 <= Zpos m * 100 / 2 ^ (- e)) by (apply Z.div_pos; lia).
    exists k. split; [lia|]. split.
    { apply rounds_to_cents_frac. rewrite Z2Pos.id by lia. exact Hr. }
    split; [reflexivity|]. intros V. apply valid_finite_canonical in V as [Hc He].
    pose proof (canonical_mantissa_lt m e Hc) as Hm.
    assert (Hk : k < 2 ^ 61).
    { assert (Zpos m * 100 / 2 ^ (- e) <= Zpos m * 100) by (apply Z.div_le_upper_bound; nia).
      lia. }
    unfold nearest_cents. destruct k as [|kp|kp] eqn:Ek; [reflexivity| |lia].
    apply SFdiv_cents_finite. exact Hk.
Qed.

Lemma binary_round_aux_pos mx ex lx :
  match binary_round_aux prec emax false mx ex lx with
  | S754_zero s | S754_finite s _ _ | S754_infinity s => s = false
  | S754_nan => True
  end.
Proof.
  unfold binary_round_aux.
  destruct (shr_fexp prec emax mx ex lx) as [mrs' e'].
  destruct (shr_fexp prec emax _ e' loc_Exact) as [mrs'' e''].
  destruct (shr_m mrs''); try exact I; try reflexivity.
  destruct (e'' <=? emax - prec); reflexivity.
Qed.

Lemma nearest_cents_nonneg k : is_finite (nearest_cents k) = true ->
  float_ge (nearest_cents k) float_zero = true.
Proof.
  unfold nearest_cents. destruct k as [|kp|kp]; try reflexivity.
  unfold SFdiv.
  destruct (SFdiv_core_binary prec emax (Zpos kp) 0 (Zpos 100) 0) as [[mz ez] lz].
  cbn [xorb]. pose proof (binary_round_aux_pos mz ez lz) as Hs.
  destruct (binary_round_aux prec emax false mz ez lz); try discriminate; subst; reflexivity.
Qed.

End FloatFacts.

(** ** Runs of the two handlers *)
Module HandlerFacts.
Import Cal Py App Spec CalAux CalFacts ParseFacts FloatFacts.
Lemma predict_rain_run ud date g :
  predict_rain ud date g =
  (match strptime ud date with
   | Raise _ => Raise (HTTPException 400 invalid_date_detail)
   | Ret d =>
       match timedelta_add d 7 with
       | Raise e => Raise e
       | Ret pd =>
           match rain_proba (rain_model g) (empty_feature_frame (rain_model g)) with
           | Raise e => Raise (HTTPException 500 (String.append "Prediction error: " (exn_str e)))
           | Ret p =>
               Ret (JObj [("input_date"%string, JStr date);
                          ("prediction"%string,
                           JObj [("date"%string, JStr (strftime_Ymd pd));
                                 ("will_rain"%string, JBool (float_ge p (rain_threshold g)))])])
           end
       end
   end, g).
Proof.
  unfold predict_rain, bind, try_except, lift, get, raise, ret.
  destruct (strptime ud date) as [d|e] eqn:E.
  - destruct (timedelta_add d 7); [|reflexivity].
    destruct (rain_proba _ _); reflexivity.
  - rewrite (strptime_Raise ud date e E). reflexivity.
Qed.

Lemma predict_precip_run ud date g :
  predict_precip ud date g =
  (match strptime ud date with
   | Raise _ => Raise (HTTPException 400 invalid_date_detail)
   | Ret d =>
       match timedelta_add d 1 with
       | Raise e => Raise e
       | Ret sd =>
           match timedelta_add d 3 with
           | Raise e => Raise e
           | Ret ed =>
               match precip_value (precip_model g) (empty_feature_frame (precip_model g)) with
               | Raise e => Raise (HTTPException 500 (String.append "Prediction error: " (exn_str e)))
               | Ret p =>
                   match float_round (py_max float_zero p) 2 with
                   | Raise e => Raise e
                   | Ret f =>
                       Ret (JObj [("input_date"%string, JStr date);
                                  ("prediction"%string,
                                   JObj [("start_date"%string, JStr (strftime_Ymd sd));
                                         ("end_date"%string, JStr (strftime_Ymd ed));
                                         ("precipitation_fall"%string, JFloat f)])])
                   end
               end
           end
       end
   end, g).
Proof.
  unfold predict_precip, bind, try_except, lift, get, raise, ret.
  destruct (strptime ud date) as [d|e] eqn:E.
  - destruct (timedelta_add d 1); [|reflexivity].
    destruct (timedelta_add d 3); [|reflexivity].
    destruct (precip_value _ _); [|reflexivity].
    destruct (float_round _ _); reflexivity.
  - rewrite (strptime_Raise ud date e E). reflexivity.
Qed.

Lemma predict_rain_globals ud date g : snd (predict_rain ud date g) = g.
Proof. rewrite predict_rain_run. reflexivity. Qed.

Lemma predict_precip_globals ud date g : snd (predict_precip ud date g) = g.
Proof. rewrite predict_precip_run. reflexivity. Qed.

Lemma handle_globals ud q g : snd (handle ud q g) = g.
Proof. destruct q; [apply predict_rain_globals | apply predict_precip_globals]. Qed.

Lemma serve_all_spec ud qs g :
  serve_all ud qs g = (map (fun q => respond (fst (handle ud q g))) qs, g).
Proof.
  induction qs as [|q qs IH]; [reflexivity|]. cbn [serve_all map].
  pose proof (handle_globals ud q g) as Hg.
  destruct (handle ud q g) as [r g'] eqn:Eh. cbn [snd fst] in *. subst g'.
  rewrite IH. reflexivity.
Qed.

Lemma timedelta_add_raise d k e :
  timedelta_add d k = Raise e -> e = OverflowError "date value out of range".
Proof. unfold timedelta_add. destruct (add_days d k); intros [= <-]; reflexivity. Qed.

Lemma respond_status v : status (respond (Ret v)) = 200 \/ status (respond (Ret v)) = 500.
Proof. unfold respond. destruct (json_allowed v); auto. Qed.

Lemma serve_rain_parsed ud g s d : strptime ud s = Ret d ->
  status (serve_rain ud g s) = 200 \/ status (serve_rain ud g s) = 500.
Proof.
  intros Hd. unfold serve_rain. rewrite predict_rain_run, Hd. cbn [fst].
  destruct (timedelta_add d 7) as [pd|e] eqn:Et.
  - destruct (rain_proba _ _); [apply respond_status | right; reflexivity].
  - apply timedelta_add_raise in Et. subst e. right; reflexivity.
Qed.

Lemma serve_precip_parsed ud g s d : strptime ud s = Ret d ->
  status (serve_precip ud g s) = 200 \/ status (serve_precip ud g s) = 500.
Proof.
  intros Hd. unfold serve_precip. rewrite predict_precip_run, Hd. cbn [fst].
  destruct (timedelta_add d 1) as [sd|e] eqn:Et1.
  2:{ apply timedelta_add_raise in Et1. subst e. right; reflexivity. }
  destruct (timedelta_add d 3) as [ed|e] eqn:Et3.
  2:{ apply timedelta_add_raise in Et3. subst e. right; reflexivity. }
  destruct (precip_value _ _) as [p|e]; [|right; reflexivity].
  destruct (float_round _ _) as [f|e] eqn:Ef; [apply respond_status|].
  unfold float_round, double_round in Ef.
  destruct (negb (is_finite _)); [discriminate|].
  destruct (323 <? _); [discriminate|].
  destruct (py_max float_zero p) as [s0|s0| |s' m e']; try discriminate.
  destruct (if 0 <=? e' then _ else _) as [|kp|kp]; try discriminate.
  destruct (SFdiv _ _ _ _); try discriminate; injection Ef as <-; right; reflexivity.
Qed.

Lemma serve_rain_400 ud g s :
  status (serve_rain ud g s) = 400 <-> exists e, strptime ud s = Raise e.
Proof.
  destruct (strptime ud s) as [d|e] eqn:E.
  - split; [|intros [e He]; discriminate].
    destruct (serve_rain_parsed ud g s d E) as [H|H]; rewrite H; discriminate.
  - split; [eauto|]. intros _. unfold serve_rain. rewrite predict_rain_run, E. reflexivity.
Qed.

Lemma serve_precip_400 ud g s :
  status (serve_precip ud g s) = 400 <-> exists e, strptime ud s = Raise e.
Proof.
  destruct (strptime ud s) as [d|e] eqn:E.
  - split; [|intros [e He]; discriminate].
    destruct (serve_precip_parsed ud g s d E) as [H|H]; rewrite H; discriminate.
  - split; [eauto|]. intros _. unfold serve_precip. rewrite predict_precip_run, E. reflexivity.
Qed.

Lemma not_accepted_raise ud s : ~ accepted_date ud s <-> exists e, strptime ud s = Raise e.
Proof.
  rewrite accepted_strptime. split.
  - destruct (strptime ud s) as [d|e]; [intros H; exfalso; eauto | eauto].
  - intros [e He] [r Hr]. congruence.
Qed.

Lemma decimal_ascii ud c : 48 <= c <= 57 -> decimal ud c = Some (c - 48).
Proof.
  intros H. unfold decimal.
  replace (c <? 128) with true by (symmetry; apply Z.ltb_lt; lia).
  replace ((48 <=? c) && (c <=? 57)) with true
    by (symmetry; apply andb_true_iff; split; apply Z.leb_le; lia).
  reflexivity.
Qed.

Lemma strip_nonspace c r : c <> 32 -> strip_spaces (c :: r) = c :: r.
Proof.
  intros H. destruct c as [|p|p]; try reflexivity.
  do 6 (destruct p as [p|p|]; try reflexivity). exfalso; apply H; reflexivity.
Qed.

Lemma is_decimal_ascii ud c : 48 <= c <= 57 -> is_decimal ud c = true.
Proof. intros H. unfold is_decimal. rewrite decimal_ascii by exact H. reflexivity. Qed.

Lemma py_int_2 ud a b : 48 <= a <= 57 -> 48 <= b <= 57 ->
  py_int ud [a; b] = 10 * (a - 48) + (b - 48).
Proof.
  intros Ha Hb. unfold py_int. rewrite strip_nonspace by lia. cbn [fold_left].
  rewrite !decimal_ascii by lia. ring.
Qed.

Lemma py_int_4 ud a b c d : 48 <= a <= 57 -> 48 <= b <= 57 -> 48 <= c <= 57 -> 48 <= d <= 57 ->
  py_int ud [a; b; c; d] = 1000 * (a - 48) + 100 * (b - 48) + 10 * (c - 48) + (d - 48).
Proof.
  intros Ha Hb Hc Hd. unfold py_int. rewrite strip_nonspace by lia. cbn [fold_left].
  rewrite !decimal_ascii by lia. ring.
Qed.

Lemma valid_date_bounds y m d : valid_date y m d = true ->
  1 <= y <= 9999 /\ 1 <= m <= 12 /\ 1 <= d <= days_in_month y m.
Proof.
  unfold valid_date, MINYEAR, MAXYEAR. rewrite !andb_true_iff, !Z.leb_le. lia.
Qed.

Lemma strict_strptime ud s y m d :
  strict_text s (y, m, d) -> valid_date y m d = true -> strptime ud s = Ret (y, m, d).
Proof.
  intros (y1 & y2 & y3 & y4 & m1 & m2 & d1 & d2 & -> & Hdig & Heq) Hv.
  cbn [forallb] in Hdig. unfold ascii_digit, in_rng in Hdig.
  rewrite !andb_true_iff, !Z.leb_le in Hdig.
  apply pair_equal_spec in Heq as [Heq ->]. apply pair_equal_spec in Heq as [-> ->].
  pose proof (valid_date_bounds _ _ _ Hv) as (Hy & Hm & Hd).
  pose proof (days_in_month_pos (1000 * (y1 - 48) + 100 * (y2 - 48) + 10 * (y3 - 48) + (y4 - 48))
                (10 * (m1 - 48) + (m2 - 48)) Hm).
  apply strptime_Ret. exists [y1; y2; y3; y4], [m1; m2], [d1; d2].
  rewrite py_int_4, !py_int_2 by lia.
  split; [reflexivity|]. split; [|split; [|split; [|split; [exact Hv | reflexivity]]]].
  - split; [reflexivity|]. cbn [forallb]. rewrite !is_decimal_ascii by lia. reflexivity.
  - unfold month_text, in_rng.
    assert (m1 = 48 \/ m1 = 49) as [->| ->] by lia.
    + right; left. exists m2. split; [reflexivity|]. rewrite andb_true_iff, !Z.leb_le. lia.
    + right; right. exists m2. split; [reflexivity|]. rewrite andb_true_iff, !Z.leb_le. lia.
  - unfold day_text, in_rng.
    assert (d1 = 48 \/ d1 = 49 \/ d1 = 50 \/ d1 = 51) as [->|[->|[->| ->]]] by lia.
    + right; right; left. exists d2. split; [reflexivity|]. rewrite andb_true_iff, !Z.leb_le. lia.
    + right; right; right; left. exists 49, d2. split; [reflexivity|].
      rewrite is_decimal_ascii by lia. split; reflexivity.
    + right; right; right; left. exists 50, d2. split; [reflexivity|].
      rewrite is_decimal_ascii by lia. split; reflexivity.
    + right; right; right; right. exists d2. split; [reflexivity|]. rewrite andb_true_iff, !Z.leb_le. lia.
Qed.

Lemma pad_digits_2 n : pad_digits 2 n = [48 + n / 10 mod 10; 48 + n mod 10].
Proof. reflexivity. Qed.

Lemma pad_digits_4 n :
  pad_digits 4 n = [48 + n / 10 / 10 / 10 mod 10; 48 + n / 10 / 10 mod 10; 48 + n / 10 mod 10; 48 + n mod 10].
Proof. reflexivity. Qed.

Lemma strftime_strict y m d : 1 <= y <= 9999 -> 1 <= m <= 12 -> 1 <= d <= 31 ->
  strict_text (strftime_Ymd (y, m, d)) (y, m, d).
Proof.
  intros Hy Hm Hd. unfold strftime_Ymd. rewrite pad_digits_4, !pad_digits_2.
  do 8 eexists. split; [reflexivity|]. split.
  - cbn [forallb]. unfold ascii_digit, in_rng.
    repeat rewrite andb_true_iff. rewrite !Z.leb_le.
    repeat split; Z.div_mod_to_equations; lia.
  - f_equal; [f_equal|]; Z.div_mod_to_equations; lia.
Qed.

Lemma plus_days_cal k y m d : valid_date y m d = true ->
  year_of (plus_days k (y, m, d)) <= 9999 ->
  let '(y', m', d') := plus_days k (y, m, d) in
  1 <= y' <= 9999 /\ 1 <= m' <= 12 /\ 1 <= d' <= days_in_month y' m'.
Proof.
  intros Hv Hy. pose proof (valid_date_bounds _ _ _ Hv) as Hb.
  assert (Hc : cal_date (y, m, d)) by (simpl; lia).
  pose proof (add_days_spec_cal k _ Hc) as Hc'.
  unfold year_of, plus_days in *.
  destruct (add_days_spec k (y, m, d)) as [[y' m'] d']. simpl in *. lia.
Qed.

Lemma strftime_plus_days k y m d : valid_date y m d = true ->
  year_of (plus_days k (y, m, d)) <= 9999 ->
  strict_text (strftime_Ymd (plus_days k (y, m, d))) (plus_days k (y, m, d)).
Proof.
  intros Hv Hy. pose proof (plus_days_cal k y m d Hv Hy) as Hc.
  destruct (plus_days k (y, m, d)) as [[y' m'] d'].
  pose proof (days_in_month_pos y' m' ltac:(lia)).
  apply strftime_strict; lia.
Qed.

Lemma timedelta_plus_days k y m d : valid_date y m d = true ->
  year_of (plus_days k (y, m, d)) <= 9999 ->
  timedelta_add (y, m, d) (Z.of_nat k) = Ret (plus_days k (y, m, d)).
Proof.
  intros Hv Hy. unfold timedelta_add. rewrite (add_days_correct y m d k Hv).
  cbv zeta. unfold year_of, plus_days, MAXYEAR in *.
  replace (fst (fst (add_days_spec k (y, m, d))) <=? 9999) with true
    by (symmetry; apply Z.leb_le; exact Hy).
  reflexivity.
Qed.

Lemma plus_days_year_mono j k y m d : (j <= k)%nat -> valid_date y m d = true ->
  year_of (plus_days k (y, m, d)) <= 9999 -> year_of (plus_days j (y, m, d)) <= 9999.
Proof.
  intros Hjk Hv Hy. pose proof (valid_date_bounds _ _ _ Hv) as Hb.
  assert (Hc : cal_date (y, m, d)) by (simpl; lia).
  unfold year_of, plus_days in *.
  apply ord3_max; [apply add_days_spec_cal, Hc|].
  apply ord3_max in Hy; [|apply add_days_spec_cal, Hc].
  rewrite ord3_add_days_spec in * by exact Hc. lia.
Qed.

Lemma serve_rain_ok ud g s y m d p :
  strict_text s (y, m, d) -> valid_date y m d = true ->
  year_of (plus_days 7 (y, m, d)) <= 9999 ->
  rain_proba (rain_model g) (empty_feature_frame (rain_model g)) = Ret p ->
  serve_rain ud g s =
  {| status := 200;
     content := JObj [("input_date"%string, JStr s);
                      ("prediction"%string,
                       JObj [("date"%string, JStr (strftime_Ymd (plus_days 7 (y, m, d))));
                             ("will_rain"%string, JBool (float_ge p (rain_threshold g)))])] |}.
Proof.
  intros Hs Hv Hy Hp. unfold serve_rain. rewrite predict_rain_run.
  rewrite (strict_strptime ud s y m d Hs Hv).
  change (timedelta_add (y, m, d) 7) with (timedelta_add (y, m, d) (Z.of_nat 7)).
  rewrite (timedelta_plus_days 7 y m d Hv Hy), Hp. reflexivity.
Qed.

Lemma round_max_zero p : SFltb float_zero p = false ->
  float_round (py_max float_zero p) 2 = Ret (S754_zero false).
Proof.
  unfold py_max, float_gt, SFltb. destruct p as [s|s| |s m e]; try destruct s; try reflexivity;
    intros H; try discriminate H.
Qed.

Lemma round_max_pos p : SFltb float_zero p = true ->
  p = S754_infinity false \/ exists m e, p = S754_finite false m e /\ py_max float_zero p = p.
Proof.
  unfold py_max, float_gt, SFltb. destruct p as [s|s| |s m e]; try destruct s; try discriminate; intros _.
  - left; reflexivity.
  - right. exists m, e. split; reflexivity.
Qed.

Lemma round_max_finite p : valid_binary prec emax p = true -> p <> S754_infinity false ->
  exists f, float_round (py_max float_zero p) 2 = Ret f /\ is_finite f = true.
Proof.
  intros Hv Hinf. destruct (SFltb float_zero p) eqn:Hlt.
  - destruct (round_max_pos p Hlt) as [->|(m & e & -> & ->)]; [congruence|].
    destruct (float_round_pos m e) as (k & _ & _ & Hr & Hf).
    specialize (Hf Hv). rewrite Hr. exists (nearest_cents k).
    destruct (nearest_cents k); try discriminate; split; reflexivity.
  - exists (S754_zero false). rewrite round_max_zero by exact Hlt. split; reflexivity.
Qed.

Lemma serve_precip_ok ud g s y m d p :
  strict_text s (y, m, d) -> valid_date y m d = true ->
  year_of (plus_days 3 (y, m, d)) <= 9999 ->
  precip_value (precip_model g) (empty_feature_frame (precip_model g)) = Ret p ->
  valid_binary prec emax p = true -> p <> S754_infinity false ->
  exists f, float_round (py_max float_zero p) 2 = Ret f /\
  serve_precip ud g s =
  {| status := 200;
     content := JObj [("input_date"%string, JStr s);
                      ("prediction"%string,
                       JObj [("start_date"%string, JStr (strftime_Ymd (plus_days 1 (y, m, d))));
                             ("end_date"%string, JStr (strftime_Ymd (plus_days 3 (y, m, d))));
                             ("precipitation_fall"%string, JFloat f)])] |}.
Proof.
  intros Hs Hv Hy Hp Hb Hinf.
  destruct (round_max_finite p Hb Hinf) as (f & Hr & Hf).
  exists f. split; [exact Hr|].
  unfold serve_precip. rewrite predict_precip_run.
  rewrite (strict_strptime ud s y m d Hs Hv).
  change (timedelta_add (y, m, d) 1) with (timedelta_add (y, m, d) (Z.of_nat 1)).
  change (timedelta_add (y, m, d) 3) with (timedelta_add (y, m, d) (Z.of_nat 3)).
  rewrite (timedelta_plus_days 1 y m d Hv (plus_days_year_mono 1 3 y m d ltac:(lia) Hv Hy)).
  rewrite (timedelta_plus_days 3 y m d Hv Hy), Hp, Hr.
  cbn [fst respond json_allowed]. rewrite Hf. reflexivity.
Qed.

Lemma serve_rain_200 ud g s : status (serve_rain ud g s) = 200 ->
  exists p pd, rain_proba (rain_model g) (empty_feature_frame (rain_model g)) = Ret p /\
  serve_rain ud g s =
  {| status := 200;
     content := JObj [("input_date"%string, JStr s);
                      ("prediction"%string,
                       JObj [("date"%string, JStr pd);
                             ("will_rain"%string, JBool (float_ge p (rain_threshold g)))])] |}.
Proof.
  unfold serve_rain. rewrite predict_rain_run. cbn [fst].
  destruct (strptime ud s) as [d|e]; [|discriminate].
  destruct (timedelta_add d 7) as [pd|e] eqn:Et.
  2:{ apply timedelta_add_raise in Et. subst e. discriminate. }
  destruct (rain_proba _ _) as [p|e]; [|discriminate].
  intros _. exists p, (strftime_Ymd pd). split; reflexivity.
Qed.

Lemma serve_precip_200 ud g s : status (serve_precip ud g s) = 200 ->
  exists p f sd ed, precip_value (precip_model g) (empty_feature_frame (precip_model g)) = Ret p /\
  float_round (py_max float_zero p) 2 = Ret f /\ is_finite f = true /\
  serve_precip ud g s =
  {| status := 200;
     content := JObj [("input_date"%string, JStr s);
                      ("prediction"%string,
                       JObj [("start_date"%string, JStr sd);
                             ("end_date"%string, JStr ed);
                             ("precipitation_fall"%string, JFloat f)])] |}.
Proof.
  unfold serve_precip. rewrite predict_precip_run. cbn [fst].
  destruct (strptime ud s) as [d|e]; [|discriminate].
  destruct (timedelta_add d 1) as [sd|e] eqn:Et1.
  2:{ apply timedelta_add_raise in Et1. subst e. discriminate. }
  destruct (timedelta_add d 3) as [ed|e] eqn:Et3.
  2:{ apply timedelta_add_raise in Et3. subst e. discriminate. }
  destruct (precip_value _ _) as [p|e]; [|discriminate].
  destruct (float_round (py_max float_zero p) 2) as [f|e] eqn:Ef.
  2:{ unfold float_round, double_round in Ef.
      destruct (negb (is_finite _)); [discriminate|].
      destruct (323 <? _); [discriminate|].
      destruct (py_max float_zero p) as [s0|s0| |s' m e']; try discriminate.
      destruct (if 0 <=? e' then _ else _) as [|kp|kp]; try discriminate.
      destruct (SFdiv _ _ _ _); try discriminate; injection Ef as <-; discriminate. }
  cbn [respond json_allowed]. destruct (is_finite f) eqn:Hf; [|discriminate].
  intros _. exists p, f, (strftime_Ymd sd), (strftime_Ymd ed). auto.
Qed.

Lemma SFcompare_swap x y : SFcompare y x = option_map CompOpp (SFcompare x y).
Proof.
  destruct x as [sx|sx| |sx mx ex], y as [sy|sy| |sy my ey];
    try destruct sx; try destruct sy; try reflexivity; cbn [SFcompare option_map CompOpp];
    rewrite (Z.compare_antisym ex ey); destruct (ex ?= ey)%Z; try reflexivity; cbn [CompOpp];
    f_equal; rewrite ?Pos.compare_cont_antisym; cbn [CompOpp];
    rewrite ?CompOpp_involutive, ?Pos.compare_cont_antisym; reflexivity.
Qed.

Lemma float_ge_SFleb x y : float_ge x y = SFleb y x.
Proof.
  unfold float_ge, SFleb. rewrite (SFcompare_swap x y).
  destruct (SFcompare x y) as [[]|]; reflexivity.
Qed.

Lemma float_round_max_cases p f : float_round (py_max float_zero p) 2 = Ret f -> is_finite f = true ->
  (SFltb float_zero p = false -> f = S754_zero false) /\
  (SFltb float_zero p = true -> is_finite p = true /\
     exists k, 0 <= k /\ rounds_to_cents (float_Q p) k /\ f = nearest_cents k).
Proof.
  intros Hr Hf. split.
  - intros Hlt. rewrite round_max_zero in Hr by exact Hlt. congruence.
  - intros Hlt. destruct (round_max_pos p Hlt) as [->|(m & e & -> & Hm)].
    + exfalso. unfold py_max, float_gt in Hr. cbn in Hr. injection Hr as <-. discriminate.
    + split; [reflexivity|]. rewrite Hm in Hr.
      destruct (float_round_pos m e) as (k & Hk & Hc & Hr' & _).
      exists k. split; [exact Hk|]. split; [exact Hc|].
      rewrite Hr' in Hr. destruct (nearest_cents k); try discriminate; congruence.
Qed.

Lemma fall_nonneg p f : float_round (py_max float_zero p) 2 = Ret f -> is_finite f = true ->
  SFleb float_zero f = true.
Proof.
  intros Hr Hf. destruct (float_round_max_cases p f Hr Hf) as [H0 H1].
  destruct (SFltb float_zero p) eqn:Hlt.
  - destruct (H1 eq_refl) as (_ & k & _ & _ & ->).
    rewrite <- float_ge_SFleb. apply nearest_cents_nonneg, Hf.
  - rewrite (H0 eq_refl). reflexivity.
Qed.

End HandlerFacts.

(** ** The order of binary64 values *)
Module OrderFacts.
Import Cal Py App Meta Spec Samples CalAux CalFacts ParseFacts FloatFacts HandlerFacts.
Lemma canonical_normal m e : fexp prec emax (Zdigits2 (Zpos m) + e) = e -> -1074 < e ->
  2 ^ 52 <= Zpos m.
Proof.
  intros Hc He. unfold fexp, emin, prec, emax in Hc.
  rewrite Zdigits2_pos in Hc by lia.
  assert (Z.log2 (Zpos m) = 52) by lia.
  destruct (Z.log2_spec (Zpos m) ltac:(lia)) as [H1 _]. rewrite H in H1. exact H1.
Qed.

Lemma canonical_exp m e : fexp prec emax (Zdigits2 (Zpos m) + e) = e -> -1074 <= e.
Proof. unfold fexp, emin, prec, emax. lia. Qed.

(** A finite float as an integer multiple of [2^-1074]. *)
Lemma float_Q_scaled s m e : -1074 <= e ->
  (float_Q (S754_finite s m e) == ((if s then - Zpos m else Zpos m) * 2 ^ (e + 1074)) # (2 ^ 1074))%Q.
Proof.
  intros He. assert (Hp : 0 < 2 ^ (e + 1074)) by (apply Z.pow_pos_nonneg; lia).
  unfold float_Q. destruct (Z.leb_spec 0 e) as [H0|H0].
  - assert (E : 2 ^ (e + 1074) = 2 ^ e * 2 ^ 1074) by (apply Z.pow_add_r; lia).
    destruct s; unfold Qeq, Qopp, inject_Z; cbn [Qnum Qden]; rewrite E;
      change (Zpos (2 ^ 1074)) with (2 ^ 1074); ring.
  - assert (E : 2 ^ 1074 = 2 ^ (e + 1074) * 2 ^ (- e)) by (rewrite <- Z.pow_add_r by lia; f_equal; ring).
    assert (Hq : 0 < 2 ^ (- e)) by (apply Z.pow_pos_nonneg; lia).
    destruct s; unfold Qeq, Qopp; cbn [Qnum Qden];
      rewrite Z2Pos.id by lia; change (Zpos (2 ^ 1074)) with (2 ^ 1074); rewrite E; ring.
Qed.

Lemma canonical_lt m1 e1 m2 e2 :
  fexp prec emax (Zdigits2 (Zpos m1) + e1) = e1 ->
  fexp prec emax (Zdigits2 (Zpos m2) + e2) = e2 -> e1 < e2 ->
  Zpos m1 * 2 ^ (e1 + 1074) < Zpos m2 * 2 ^ (e2 + 1074).
Proof.
  intros H1 H2 He.
  pose proof (canonical_mantissa_lt m1 e1 H1) as Hm1.
  pose proof (canonical_exp m1 e1 H1) as He1.
  pose proof (canonical_normal m2 e2 H2 ltac:(lia)) as Hm2.
  assert (HA : 0 < 2 ^ (e1 + 1074)) by (apply Z.pow_pos_nonneg; lia).
  assert (HB : 2 <= 2 ^ (e2 - e1)).
  { change 2 with (2 ^ 1) at 1. apply Z.pow_le_mono_r; lia. }
  replace (2 ^ (e2 + 1074)) with (2 ^ (e1 + 1074) * 2 ^ (e2 - e1))
    by (rewrite <- Z.pow_add_r by lia; f_equal; ring).
  set (A := 2 ^ (e1 + 1074)) in *. set (B := 2 ^ (e2 - e1)) in *.
  assert (Zpos m2 * B >= 2 ^ 53) by (change (2 ^ 53) with (2 ^ 52 * 2); nia).
  assert (Zpos m1 * A < 2 ^ 53 * A) by nia.
  nia.
Qed.

Lemma pos_compare_scaled m1 e1 m2 e2 :
  fexp prec emax (Zdigits2 (Zpos m1) + e1) = e1 ->
  fexp prec emax (Zdigits2 (Zpos m2) + e2) = e2 ->
  match (e1 ?= e2) with Lt => Lt | Gt => Gt | Eq => Pos.compare_cont Eq m1 m2 end
  = (Zpos m1 * 2 ^ (e1 + 1074) ?= Zpos m2 * 2 ^ (e2 + 1074)).
Proof.
  intros H1 H2. destruct (Z.compare_spec e1 e2) as [<-|Hlt|Hgt].
  - assert (HA : 0 < 2 ^ (e1 + 1074))
      by (apply Z.pow_pos_nonneg; pose proof (canonical_exp m1 e1 H1); lia).
    change (Pos.compare_cont Eq m1 m2) with (Zpos m1 ?= Zpos m2).
    destruct (Z.compare_spec (Zpos m1) (Zpos m2)); symmetry;
      [apply Z.compare_eq_iff | apply Z.compare_lt_iff | apply Z.compare_gt_iff]; nia.
  - symmetry. apply Z.compare_lt_iff. apply canonical_lt; assumption.
  - symmetry. apply Z.compare_gt_iff. apply canonical_lt; assumption.
Qed.

Lemma Qle_same_den a b (D : positive) : ((a # D) <= (b # D))%Q <-> a <= b.
Proof. unfold Qle; cbn [Qnum Qden]. nia. Qed.

(** On binary64 values, [SFleb] is the order of their exact values. *)
Lemma SFleb_Q x y :
  valid_binary prec emax x = true -> valid_binary prec emax y = true ->
  is_finite x = true -> is_finite y = true ->
  (SFleb x y = true <-> (float_Q x <= float_Q y)%Q).
Proof.
  intros Vx Vy Fx Fy.
  destruct x as [sx|sx| |sx mx ex]; try discriminate Fx;
  destruct y as [sy|sy| |sy my ey]; try discriminate Fy.
  - unfold SFleb; cbn. split; [intros _; apply Qle_refl | reflexivity].
  - apply valid_finite_canonical in Vy as [Cy _]. pose proof (canonical_exp my ey Cy) as Ey.
    assert (Hp : 0 < 2 ^ (ey + 1074)) by (apply Z.pow_pos_nonneg; lia).
    rewrite (float_Q_scaled sy my ey Ey). change (float_Q (S754_zero sx)) with (0 # 1)%Q.
    unfold SFleb; cbn [SFcompare]. unfold Qle; cbn [Qnum Qden].
    destruct sy; split; intros H; try discriminate; try reflexivity; nia.
  - apply valid_finite_canonical in Vx as [Cx _]. pose proof (canonical_exp mx ex Cx) as Ex.
    assert (Hp : 0 < 2 ^ (ex + 1074)) by (apply Z.pow_pos_nonneg; lia).
    rewrite (float_Q_scaled sx mx ex Ex). change (float_Q (S754_zero sy)) with (0 # 1)%Q.
    unfold SFleb; cbn [SFcompare]. unfold Qle; cbn [Qnum Qden].
    destruct sx; split; intros H; try discriminate; try reflexivity; nia.
  - apply valid_finite_canonical in Vx as [Cx _]. pose proof (canonical_exp mx ex Cx) as Ex.
    apply valid_finite_canonical in Vy as [Cy _]. pose proof (canonical_exp my ey Cy) as Ey.
    assert (Hpx : 0 < 2 ^ (ex + 1074)) by (apply Z.pow_pos_nonneg; lia).
    assert (Hpy : 0 < 2 ^ (ey + 1074)) by (apply Z.pow_pos_nonneg; lia).
    rewrite (float_Q_scaled sx mx ex Ex), (float_Q_scaled sy my ey Ey), Qle_same_den.
    unfold SFleb; cbn [SFcompare].
    destruct sx, sy.
    + assert (E : match ex ?= ey with Eq => CompOpp (Pos.compare_cont Eq mx my) | Lt => Gt | Gt => Lt end
                = CompOpp (match ex ?= ey with Lt => Lt | Gt => Gt | Eq => Pos.compare_cont Eq mx my end))
        by (destruct (ex ?= ey); reflexivity).
      rewrite E, pos_compare_scaled by assumption.
      destruct (Z.compare_spec (Zpos mx * 2 ^ (ex + 1074)) (Zpos my * 2 ^ (ey + 1074)));
        cbn [CompOpp]; split; intros; try reflexivity; try discriminate; nia.
    + split; [intros _; nia | reflexivity].
    + split; [discriminate | nia].
    + rewrite pos_compare_scaled by assumption.
      destruct (Z.compare_spec (Zpos mx * 2 ^ (ex + 1074)) (Zpos my * 2 ^ (ey + 1074)));
        split; intros; try reflexivity; try discriminate; nia.
Qed.

End OrderFacts.

(** ** The claims *)
Module Claims.
Import Cal Py App Meta Spec Samples CalAux CalFacts ParseFacts FloatFacts HandlerFacts OrderFacts.
Ltac strict_concrete :=
  do 8 eexists; split; [reflexivity | split; reflexivity].

(** Claim C1 (as written), refuted: ["9999-12-31"] is a valid date and the
    classifier answers, yet the rain endpoint answers 500, not 200. *)
Lemma c1_counterexample :
  strict_date date_max
  /\ (exists p, rain_proba (rain_model g_ok) (empty_feature_frame (rain_model g_ok)) = Ret p)
  /\ status (serve_rain no_unicode g_ok date_max) = 500.
Proof.
  split; [|split].
  - exists 9999, 12, 31. split; [strict_concrete | reflexivity].
  - eexists; reflexivity.
  - vm_compute. reflexivity.
Qed.

(** Claim C1 (amended): for a strict [YYYY-MM-DD] date [(y, m, d)] from
    year 1000 on whose seventh next day is still within year 9999, when the
    classifier call
    succeeds, the rain endpoint answers 200 with [prediction.date] the strict
    [YYYY-MM-DD] text of the date 7 days later. *)
Theorem c1_rain_date_plus_7 ud g s y m d :
  strict_text s (y, m, d) -> 1000 <= y -> valid_date y m d = true ->
  year_of (plus_days 7 (y, m, d)) <= 9999 ->
  (exists p, rain_proba (rain_model g) (empty_feature_frame (rain_model g)) = Ret p) ->
  exists out b,
    serve_rain ud g s =
    {| status := 200;
       content := JObj [("input_date"%string, JStr s);
                        ("prediction"%string, JObj [("date"%string, JStr out);
                                                    ("will_rain"%string, JBool b)])] |}
    /\ strict_text out (plus_days 7 (y, m, d)).
Proof.
  intros Hs _ Hv Hy [p Hp].
  exists (strftime_Ymd (plus_days 7 (y, m, d))), (float_ge p (rain_threshold g)).
  split; [apply (serve_rain_ok ud g s y m d p Hs Hv Hy Hp)|].
  apply strftime_plus_days; assumption.
Qed.

Lemma c1_witness :
  exists out b,
    serve_rain no_unicode g_ok date_ex =
    {| status := 200;
       content := JObj [("input_date"%string, JStr date_ex);
                        ("prediction"%string, JObj [("date"%string, JStr out);
                                                    ("will_rain"%string, JBool b)])] |}
    /\ strict_text out (plus_days 7 (2024, 2, 25)).
Proof.
  apply (c1_rain_date_plus_7 no_unicode g_ok date_ex 2024 2 25).
  - strict_concrete.
  - lia.
  - reflexivity.
  - apply Z.leb_le. vm_compute. reflexivity.
  - eexists. reflexivity.
Defined.

(** Claim C2 (as written), refuted: ["9999-12-29"] is a valid date and the
    regressor answers, yet the precipitation endpoint answers 500. *)
Lemma c2_counterexample :
  strict_date date_29
  /\ (exists p, precip_value (precip_model g_ok) (empty_feature_frame (precip_model g_ok)) = Ret p)
  /\ status (serve_precip no_unicode g_ok date_29) = 500.
Proof.
  split; [|split].
  - exists 9999, 12, 29. split; [strict_concrete | reflexivity].
  - eexists; reflexivity.
  - vm_compute. reflexivity.
Qed.

(** Claim C2 (amended): for a strict [YYYY-MM-DD] date from year 1000 on
    whose third next day is still within year 9999, when the regressor answers a binary64 value
    other than [+inf], the precipitation endpoint answers 200 with
    [start_date] and [end_date] the strict texts of the dates 1 and 3 days
    later. *)
Theorem c2_precip_window ud g s y m d p :
  strict_text s (y, m, d) -> 1000 <= y -> valid_date y m d = true ->
  year_of (plus_days 3 (y, m, d)) <= 9999 ->
  precip_value (precip_model g) (empty_feature_frame (precip_model g)) = Ret p ->
  valid_binary prec emax p = true -> p <> S754_infinity false ->
  exists st en f,
    serve_precip ud g s =
    {| status := 200;
       content := JObj [("input_date"%string, JStr s);
                        ("prediction"%string, JObj [("start_date"%string, JStr st);
                                                    ("end_date"%string, JStr en);
                                                    ("precipitation_fall"%string, JFloat f)])] |}
    /\ strict_text st (plus_days 1 (y, m, d)) /\ strict_text en (plus_days 3 (y, m, d)).
Proof.
  intros Hs _ Hv Hy Hp Hb Hinf.
  destruct (serve_precip_ok ud g s y m d p Hs Hv Hy Hp Hb Hinf) as (f & _ & Hr).
  exists (strftime_Ymd (plus_days 1 (y, m, d))), (strftime_Ymd (plus_days 3 (y, m, d))), f.
  split; [exact Hr|]. split; apply strftime_plus_days; try assumption.
  apply (plus_days_year_mono 1 3); [lia | assumption | assumption].
Qed.

Lemma c2_witness :
  exists st en f,
    serve_precip no_unicode g_ok date_ex =
    {| status := 200;
       content := JObj [("input_date"%string, JStr date_ex);
                        ("prediction"%string, JObj [("start_date"%string, JStr st);
                                                    ("end_date"%string, JStr en);
                                                    ("precipitation_fall"%string, JFloat f)])] |}
    /\ strict_text st (plus_days 1 (2024, 2, 25)) /\ strict_text en (plus_days 3 (2024, 2, 25)).
Proof.
  apply (c2_precip_window no_unicode g_ok date_ex 2024 2 25 (q2f 1234 1000)).
  - strict_concrete.
  - lia.
  - reflexivity.
  - apply Z.leb_le. vm_compute. reflexivity.
  - reflexivity.
  - vm_compute. reflexivity.
  - intros H. vm_compute in H. discriminate H.
Defined.

(** Claim C3 (as written), refuted: ["2024-1-5"] is not a strict-format
    date, yet both endpoints answer 200. *)
Lemma c3_counterexample :
  ~ strict_date date_loose
  /\ status (serve_rain no_unicode g_ok date_loose) = 200
  /\ status (serve_precip no_unicode g_ok date_loose) = 200.
Proof.
  split; [|split; vm_compute; reflexivity].
  intros (y & m & d & (y1 & y2 & y3 & y4 & m1 & m2 & d1 & d2 & Hs & _) & _).
  apply (f_equal (@List.length Z)) in Hs. vm_compute in Hs. discriminate Hs.
Qed.

(** Claim C3 (amended): each endpoint answers 400 exactly when the date is
    not one [strptime(date, "%Y-%m-%d")] accepts: four decimal digits, a
    month [1]-[9], [01]-[09] or [10]-[12], a day [1]-[9], [' '1]-[' '9],
    [01]-[09], [1x], [2x], [30] or [31], forming a valid date. Every strict
    [YYYY-MM-DD] valid date is among those accepted. *)
Theorem c3_400_iff_not_accepted ud g s :
  (status (serve_rain ud g s) = 400 <-> ~ accepted_date ud s)
  /\ (status (serve_precip ud g s) = 400 <-> ~ accepted_date ud s)
  /\ (strict_date s -> accepted_date ud s).
Proof.
  split; [|split].
  - rewrite serve_rain_400, not_accepted_raise. reflexivity.
  - rewrite serve_precip_400, not_accepted_raise. reflexivity.
  - intros (y & m & d & Hs & Hv). apply accepted_strptime.
    exists (y, m, d). apply strict_strptime; assumption.
Qed.

(** Claim C4: whenever the precipitation endpoint answers 200, its
    [precipitation_fall] is a finite float with [0.0 <= precipitation_fall]. *)
Theorem c4_fall_nonneg ud g s :
  status (serve_precip ud g s) = 200 ->
  exists f, response_fall (content (serve_precip ud g s)) = Some f
            /\ is_finite f = true /\ SFleb float_zero f = true.
Proof.
  intros H200. destruct (serve_precip_200 ud g s H200) as (p & f & sd & ed & _ & Hr & Hf & Heq).
  exists f. rewrite Heq. split; [reflexivity|]. split; [exact Hf|].
  apply (fall_nonneg p f Hr Hf).
Qed.

Lemma c4_witness :
  exists f, response_fall (content (serve_precip no_unicode g_ok date_ex)) = Some f
            /\ is_finite f = true /\ SFleb float_zero f = true.
Proof. apply c4_fall_nonneg. vm_compute. reflexivity. Defined.

(** Claim C5 (as written), refuted: the classifier answers for the valid
    date ["9999-12-31"] and the rain endpoint still answers 500; the
    regressor answers [inf] for ["2024-02-25"] and the precipitation
    endpoint answers 500. *)
Lemma c5_counterexample :
  (strict_date date_max
   /\ (exists p, rain_proba (rain_model g_ok) (empty_feature_frame (rain_model g_ok)) = Ret p)
   /\ status (serve_rain no_unicode g_ok date_max) = 500)
  /\ (strict_date date_ex
      /\ (exists p, precip_value (precip_model g_inf) (empty_feature_frame (precip_model g_inf)) = Ret p)
      /\ status (serve_precip no_unicode g_inf date_ex) = 500).
Proof.
  split; (split; [|split]).
  - exists 9999, 12, 31. split; [strict_concrete | reflexivity].
  - eexists; reflexivity.
  - vm_compute. reflexivity.
  - exists 2024, 2, 25. split; [strict_concrete | reflexivity].
  - eexists; reflexivity.
  - vm_compute. reflexivity.
Qed.

(** Claim C5 (amended): on an accepted date, a raising model call gives
    500 on either endpoint; on a strict valid date within range of
    9999-12-31 (7 days for rain, 3 for precipitation), a successful call
    (for the regressor, a binary64 value other than [+inf]) gives 200 with
    the input date and the prediction fields. *)
Theorem c5_prediction_status :
  (forall ud g s e, accepted_date ud s ->
     rain_proba (rain_model g) (empty_feature_frame (rain_model g)) = Raise e ->
     status (serve_rain ud g s) = 500)
  /\ (forall ud g s e, accepted_date ud s ->
     precip_value (precip_model g) (empty_feature_frame (precip_model g)) = Raise e ->
     status (serve_precip ud g s) = 500)
  /\ (forall ud g s y m d p, strict_text s (y, m, d) -> valid_date y m d = true ->
     year_of (plus_days 7 (y, m, d)) <= 9999 ->
     rain_proba (rain_model g) (empty_feature_frame (rain_model g)) = Ret p ->
     exists out b, serve_rain ud g s =
       {| status := 200;
          content := JObj [("input_date"%string, JStr s);
                           ("prediction"%string, JObj [("date"%string, JStr out);
                                                       ("will_rain"%string, JBool b)])] |})
  /\ (forall ud g s y m d p, strict_text s (y, m, d) -> valid_date y m d = true ->
     year_of (plus_days 3 (y, m, d)) <= 9999 ->
     precip_value (precip_model g) (empty_feature_frame (precip_model g)) = Ret p ->
     valid_binary prec emax p = true -> p <> S754_infinity false ->
     exists st en f, serve_precip ud g s =
       {| status := 200;
          content := JObj [("input_date"%string, JStr s);
                           ("prediction"%string, JObj [("start_date"%string, JStr st);
                                                       ("end_date"%string, JStr en);
                                                       ("precipitation_fall"%string, JFloat f)])] |}).
Proof.
  split; [|split; [|split]].
  - intros ud g s e Ha He. apply accepted_strptime in Ha as [d Hd].
    unfold serve_rain. rewrite predict_rain_run, Hd. cbn [fst].
    destruct (timedelta_add d 7) as [pd|e'] eqn:Et.
    + rewrite He. reflexivity.
    + apply timedelta_add_raise in Et. subst e'. reflexivity.
  - intros ud g s e Ha He. apply accepted_strptime in Ha as [d Hd].
    unfold serve_precip. rewrite predict_precip_run, Hd. cbn [fst].
    destruct (timedelta_add d 1) as [sd|e'] eqn:Et1.
    2:{ apply timedelta_add_raise in Et1. subst e'. reflexivity. }
    destruct (timedelta_add d 3) as [ed|e'] eqn:Et3.
    2:{ apply timedelta_add_raise in Et3. subst e'. reflexivity. }
    rewrite He. reflexivity.
  - intros ud g s y m d p Hs Hv Hy Hp.
    exists (strftime_Ymd (plus_days 7 (y, m, d))), (float_ge p (rain_threshold g)).
    apply (serve_rain_ok ud g s y m d p Hs Hv Hy Hp).
  - intros ud g s y m d p Hs Hv Hy Hp Hb Hinf.
    destruct (serve_precip_ok ud g s y m d p Hs Hv Hy Hp Hb Hinf) as (f & _ & Hr).
    do 3 eexists. exact Hr.
Qed.

Lemma c5_witness : status (serve_rain no_unicode g_fail date_ex) = 500.
Proof.
  eapply (proj1 c5_prediction_status no_unicode g_fail date_ex).
  - apply accepted_strptime. eexists. vm_compute. reflexivity.
  - reflexivity.
Defined.

(** Claim C6: whenever the rain endpoint answers 200, [will_rain] is the
    boolean [threshold <= p] for the classifier's probability [p]; on finite
    binary64 values it holds exactly when [p] reaches the threshold as a
    rational number. *)
Theorem c6_will_rain_threshold ud g s :
  status (serve_rain ud g s) = 200 ->
  exists p b,
    rain_proba (rain_model g) (empty_feature_frame (rain_model g)) = Ret p
    /\ response_will_rain (content (serve_rain ud g s)) = Some b
    /\ b = SFleb (rain_threshold g) p
    /\ (valid_binary prec emax p = true -> valid_binary prec emax (rain_threshold g) = true ->
        is_finite p = true -> is_finite (rain_threshold g) = true ->
        (b = true <-> (float_Q (rain_threshold g) <= float_Q p)%Q)).
Proof.
  intros H200. destruct (serve_rain_200 ud g s H200) as (p & pd & Hp & Heq).
  exists p, (float_ge p (rain_threshold g)). rewrite Heq, float_ge_SFleb.
  split; [exact Hp|]. split; [reflexivity|]. split; [reflexivity|].
  intros Vp Vt Fp Ft. apply SFleb_Q; assumption.
Qed.

Lemma c6_witness :
  exists p b,
    rain_proba (rain_model g_ok) (empty_feature_frame (rain_model g_ok)) = Ret p
    /\ response_will_rain (content (serve_rain no_unicode g_ok date_ex)) = Some b
    /\ b = SFleb (rain_threshold g_ok) p
    /\ (valid_binary prec emax p = true -> valid_binary prec emax (rain_threshold g_ok) = true ->
        is_finite p = true -> is_finite (rain_threshold g_ok) = true ->
        (b = true <-> (float_Q (rain_threshold g_ok) <= float_Q p)%Q)).
Proof. apply c6_will_rain_threshold. vm_compute. reflexivity. Defined.

(** Claim C7 (as written), refuted: a metadata file [{"threshold": null}]
    exists and holds the key, yet no float is read from it: [float(None)]
    raises and the threshold stays 0.5. *)
Lemma c7_counterexample :
  file_with_key meta_null PNone
  /\ (forall f, py_float no_float_str PNone <> Ret f)
  /\ load_rain_threshold no_float_str meta_null = float_half.
Proof.
  split; [|split].
  - split; [discriminate|]. split; [reflexivity|].
    eexists. split; reflexivity.
  - intros f H. discriminate H.
  - reflexivity.
Qed.

(** Claim C7 (amended): after startup, the threshold is [float(v)] when the
    path is set, the file exists and loads to a dict whose ["threshold"]
    entry [v] converts with [float]; it is 0.5 in every other case. *)
Theorem c7_threshold_source fos rp pp mf g :
  startup fos rp pp mf = Ret g ->
  (forall v f, file_with_key mf v -> py_float fos v = Ret f -> rain_threshold g = f)
  /\ ((~ exists v f, file_with_key mf v /\ py_float fos v = Ret f) -> rain_threshold g = float_half).
Proof.
  unfold startup. destruct rp as [rm|e]; [|discriminate]. destruct pp as [pm|e]; [|discriminate].
  intros [= <-]. cbn [rain_threshold]. split.
  - intros v f (Hp & He & kvs & Hl & Hk) Hf. unfold load_rain_threshold.
    destruct (meta_path mf); [congruence|]. rewrite He, Hl, Hk, Hf. reflexivity.
  - intros Hn. unfold load_rain_threshold.
    destruct (meta_path mf) as [|c cs] eqn:Hp; [reflexivity|].
    destruct (path_exists mf) eqn:He; [|reflexivity].
    destruct (load_json mf) as [[| | | | | |kvs]|e] eqn:Hl; try reflexivity.
    destruct (dict_lookup threshold_key kvs) as [v|] eqn:Hk; [|reflexivity].
    destruct (py_float fos v) as [f|e] eqn:Hf; [|reflexivity].
    exfalso. apply Hn. exists v, f. split; [|exact Hf].
    split; [rewrite Hp; discriminate|]. split; [exact He|]. exists kvs. split; assumption.
Qed.

Lemma c7_witness :
  (forall v f, file_with_key meta_07 v -> py_float no_float_str v = Ret f ->
     rain_threshold {| rain_model := est_ok; precip_model := est_ok;
                       rain_threshold := load_rain_threshold no_float_str meta_07 |} = f)
  /\ ((~ exists v f, file_with_key meta_07 v /\ py_float no_float_str v = Ret f) ->
     rain_threshold {| rain_model := est_ok; precip_model := est_ok;
                       rain_threshold := load_rain_threshold no_float_str meta_07 |} = float_half).
Proof. apply (c7_threshold_source no_float_str (Ret est_ok) (Ret est_ok) meta_07). reflexivity. Defined.

(** Claim C8: with fixed globals, two requests equal to each other, at any
    positions of a run of requests, get equal responses. *)
Theorem c8_deterministic ud qs g i j q :
  nth_error qs i = Some q -> nth_error qs j = Some q ->
  nth_error (fst (serve_all ud qs g)) i = nth_error (fst (serve_all ud qs g)) j.
Proof.
  intros Hi Hj. rewrite serve_all_spec. cbn [fst].
  rewrite !nth_error_map, Hi, Hj. reflexivity.
Qed.

Lemma c8_witness :
  nth_error (fst (serve_all no_unicode [RainReq date_ex; PrecipReq date_ex; RainReq date_ex] g_ok)) 0
  = nth_error (fst (serve_all no_unicode [RainReq date_ex; PrecipReq date_ex; RainReq date_ex] g_ok)) 2.
Proof. apply (c8_deterministic _ _ _ 0 2 (RainReq date_ex)); reflexivity. Defined.

(** Claim C9: the handlers leave the globals (both models and the threshold)
    as they found them, over any run of requests. *)
Theorem c9_globals_unchanged ud s g :
  snd (predict_rain ud s g) = g /\ snd (predict_precip ud s g) = g
  /\ forall qs, snd (serve_all ud qs g) = g.
Proof.
  split; [apply predict_rain_globals|]. split; [apply predict_precip_globals|].
  intros qs. rewrite serve_all_spec. reflexivity.
Qed.

(** Claim C10: whenever the precipitation endpoint answers 200,
    [precipitation_fall] is [0.0] when the regressor's value [p] is not
    above [0.0] (NaN included), and otherwise the double nearest to [k/100]
    with [k] the integer nearest to [100 * p] (ties to even). *)
Theorem c10_fall_rounding ud g s :
  status (serve_precip ud g s) = 200 ->
  exists p f,
    precip_value (precip_model g) (empty_feature_frame (precip_model g)) = Ret p
    /\ response_fall (content (serve_precip ud g s)) = Some f
    /\ (SFltb float_zero p = false -> f = S754_zero false)
    /\ (SFltb float_zero p = true -> is_finite p = true /\
          exists k, 0 <= k /\ rounds_to_cents (float_Q p) k /\ f = nearest_cents k).
Proof.
  intros H200. destruct (serve_precip_200 ud g s H200) as (p & f & sd & ed & Hp & Hr & Hf & Heq).
  exists p, f. rewrite Heq. split; [exact Hp|]. split; [reflexivity|].
  apply (float_round_max_cases p f Hr Hf).
Qed.

Lemma c10_witness :
  exists p f,
    precip_value (precip_model g_ok) (empty_feature_frame (precip_model g_ok)) = Ret p
    /\ response_fall (content (serve_precip no_unicode g_ok date_ex)) = Some f
    /\ (SFltb float_zero p = false -> f = S754_zero false)
    /\ (SFltb float_zero p = true -> is_finite p = true /\
          exists k, 0 <= k /\ rounds_to_cents (float_Q p) k /\ f = nearest_cents k).
Proof. apply c10_fall_rounding. vm_compute. reflexivity. Defined.

End Claims.

(** ** Further facts about dates, responses and model outputs *)
Module ExtraFacts.
Import Cal Py App Meta Paths Spec Samples Responses CalAux CalFacts ParseFacts FloatFacts HandlerFacts OrderFacts.

Lemma strptime_valid ud s y m d : strptime ud s = Ret (y, m, d) -> valid_date y m d = true.
Proof.
  intros H. apply strptime_Ret in H as (ys & ms & ds & _ & _ & _ & _ & Hv & Hr).
  apply pair_equal_spec in Hr as [Hr Hd]. apply pair_equal_spec in Hr as [Hy Hm].
  subst. exact Hv.
Qed.

Lemma timedelta_add_spec y m d k : valid_date y m d = true ->
  timedelta_add (y, m, d) (Z.of_nat k) =
  if year_of (plus_days k (y, m, d)) <=? 9999 then Ret (plus_days k (y, m, d))
  else Raise (OverflowError "date value out of range").
Proof.
  intros Hv. unfold timedelta_add. rewrite (add_days_correct y m d k Hv).
  cbv zeta. unfold year_of, plus_days, MAXYEAR.
  destruct (fst (fst (add_days_spec k (y, m, d))) <=? 9999); reflexivity.
Qed.

Lemma add_days_spec_add j k x : add_days_spec (j + k) x = add_days_spec k (add_days_spec j x).
Proof. revert x. induction j as [|j IH]; intros x; [reflexivity|]. apply IH. Qed.

Lemma plus_days_valid k y m d : valid_date y m d = true ->
  year_of (plus_days k (y, m, d)) <= 9999 ->
  let '(y', m', d') := plus_days k (y, m, d) in valid_date y' m' d' = true.
Proof.
  intros Hv Hy. pose proof (plus_days_cal k y m d Hv Hy) as Hc.
  destruct (plus_days k (y, m, d)) as [[y' m'] d'].
  unfold valid_date, MINYEAR, MAXYEAR. rewrite !andb_true_iff, !Z.leb_le. lia.
Qed.

Lemma column1_ok rows : (forall r, In r rows -> (2 <= List.length r)%nat) ->
  exists col, column1 rows = Ret col.
Proof.
  induction rows as [|r rows IH]; intros Hl; [eexists; reflexivity|].
  destruct IH as [col Hc]; [intros r' Hr'; apply Hl; right; exact Hr'|].
  destruct (nth_error r 1) as [v|] eqn:Hn.
  - exists (v :: col). cbn [column1]. rewrite Hn, Hc. reflexivity.
  - exfalso. apply nth_error_None in Hn. specialize (Hl r (or_introl eq_refl)). lia.
Qed.

End ExtraFacts.

(** ** Further properties of app/main.py *)
Module Extras.
Import Cal Py App Meta Paths Spec Samples Responses CalAux CalFacts ParseFacts FloatFacts HandlerFacts OrderFacts ExtraFacts.

(** Extra X1: formatting a valid date from year 1000 on with
    [strftime("%Y-%m-%d")] and parsing it back with [strptime] gives the
    same date. *)
Theorem x_strftime_strptime ud y m d : 1000 <= y -> valid_date y m d = true ->
  strptime ud (strftime_Ymd (y, m, d)) = Ret (y, m, d).
Proof.
  intros _ Hv. pose proof (valid_date_bounds _ _ _ Hv) as (Hy & Hm & Hd).
  pose proof (days_in_month_pos y m Hm).
  apply strict_strptime; [apply strftime_strict; lia | exact Hv].
Qed.

Lemma x_strftime_strptime_witness :
  strptime no_unicode (strftime_Ymd (2024, 2, 29)) = Ret (2024, 2, 29).
Proof. apply x_strftime_strptime; [lia | reflexivity]. Defined.

(** Extra X2: [strftime("%Y-%m-%d")] of the date a strict [YYYY-MM-DD]
    string denotes, from year 1000 on, gives back that string. *)
Theorem x_strict_strftime s y m d : strict_text s (y, m, d) -> 1000 <= y ->
  strftime_Ymd (y, m, d) = s.
Proof.
  intros (y1 & y2 & y3 & y4 & m1 & m2 & d1 & d2 & -> & Hdig & Heq) _.
  cbn [forallb] in Hdig. unfold ascii_digit, in_rng in Hdig.
  rewrite !andb_true_r, !andb_true_iff, !Z.leb_le in Hdig.
  apply pair_equal_spec in Heq as [Heq Hd]. apply pair_equal_spec in Heq as [Hy Hm].
  subst y m d. unfold strftime_Ymd. rewrite pad_digits_4, !pad_digits_2. cbn [app].
  repeat f_equal; Z.div_mod_to_equations; lia.
Qed.

Lemma x_strict_strftime_witness : strftime_Ymd (2024, 2, 25) = date_ex.
Proof.
  apply x_strict_strftime; [do 8 eexists; split; [reflexivity | split; reflexivity] | lia].
Defined.

(** Extra X3: every string [strptime(date, "%Y-%m-%d")] accepts is 8 to
    10 characters long, so a date string shorter than 8 or longer than 10
    characters gets, from both endpoints, status 400 with body
    [{"detail": "Invalid date format. Use YYYY-MM-DD"}]. *)
Theorem x_accepted_length ud g s :
  (forall r, strptime ud s = Ret r -> (8 <= List.length s <= 10)%nat)
  /\ ((List.length s < 8 \/ 10 < List.length s)%nat ->
      serve_rain ud g s = bad_date_response /\ serve_precip ud g s = bad_date_response).
Proof.
  assert (Hlen : forall r, strptime ud s = Ret r -> (8 <= List.length s <= 10)%nat).
  2:{ split; [exact Hlen|]. intros Hl.
      destruct (strptime ud s) as [r|e] eqn:E; [exfalso; specialize (Hlen r eq_refl); lia|].
      unfold serve_rain, serve_precip. rewrite predict_rain_run, predict_precip_run, E.
      split; reflexivity. }
  intros r H. apply strptime_Ret in H as (ys & ms & ds & -> & [Hy _] & Hm & Hd & _).
  rewrite !length_app. cbn [List.length]. rewrite Hy.
  assert (Lm : (1 <= List.length ms <= 2)%nat)
    by (destruct Hm as [(a & -> & _)|[(b & -> & _)|(b & -> & _)]]; cbn; lia).
  assert (Ld : (1 <= List.length ds <= 2)%nat)
    by (destruct Hd as [(a & -> & _)|[(a & -> & _)|[(b & -> & _)|[(a & b & -> & _)|(b & -> & _)]]]];
        cbn; lia).
  lia.
Qed.

Lemma x_accepted_length_witness :
  serve_rain no_unicode g_ok date_long = bad_date_response
  /\ serve_precip no_unicode g_ok date_long = bad_date_response.
Proof. apply (proj2 (x_accepted_length no_unicode g_ok date_long)). right. vm_compute. lia. Defined.

(** Extra X4: both endpoints only ever answer 200, 400 or 500. *)
Theorem x_status_codes ud g s :
  (status (serve_rain ud g s) = 200 \/ status (serve_rain ud g s) = 400 \/ status (serve_rain ud g s) = 500)
  /\ (status (serve_precip ud g s) = 200 \/ status (serve_precip ud g s) = 400
      \/ status (serve_precip ud g s) = 500).
Proof.
  destruct (strptime ud s) as [d|e] eqn:E.
  - destruct (serve_rain_parsed ud g s d E), (serve_precip_parsed ud g s d E); tauto.
  - assert (H1 : status (serve_rain ud g s) = 400) by (apply serve_rain_400; eauto).
    assert (H2 : status (serve_precip ud g s) = 400) by (apply serve_precip_400; eauto).
    tauto.
Qed.

(** Extra X5: a date [strptime] rejects gets, from both endpoints, status
    400 with body [{"detail": "Invalid date format. Use YYYY-MM-DD"}]. *)
Theorem x_bad_date_response ud g s : ~ accepted_date ud s ->
  serve_rain ud g s = bad_date_response /\ serve_precip ud g s = bad_date_response.
Proof.
  intros Hn. apply not_accepted_raise in Hn as [e He].
  unfold serve_rain, serve_precip. rewrite predict_rain_run, predict_precip_run, He.
  split; reflexivity.
Qed.

Lemma x_bad_date_response_witness :
  serve_rain no_unicode g_ok date_bad = bad_date_response
  /\ serve_precip no_unicode g_ok date_bad = bad_date_response.
Proof.
  apply x_bad_date_response. apply not_accepted_raise. eexists. vm_compute. reflexivity.
Defined.

(** Extra X6: when the date parses and the date 7 days later exists, a
    classifier call raising [e] gives status 500 with body
    [{"detail": "Prediction error: " + str(e)}]. *)
Theorem x_rain_prediction_error ud g s d pd e :
  strptime ud s = Ret d -> timedelta_add d 7 = Ret pd ->
  rain_proba (rain_model g) (empty_feature_frame (rain_model g)) = Raise e ->
  serve_rain ud g s = prediction_error_response e.
Proof.
  intros Hd Ht He. unfold serve_rain. rewrite predict_rain_run, Hd, Ht, He. reflexivity.
Qed.

Lemma x_rain_prediction_error_witness :
  serve_rain no_unicode g_fail date_ex
  = prediction_error_response (PyExc "NotFittedError" "This estimator is not fitted yet.").
Proof.
  apply (x_rain_prediction_error no_unicode g_fail date_ex (2024, 2, 25) (2024, 3, 3));
    vm_compute; reflexivity.
Defined.

(** Extra X7: when the date parses and the dates 1 and 3 days later exist,
    a regressor call raising [e] gives status 500 with body
    [{"detail": "Prediction error: " + str(e)}]. *)
Theorem x_precip_prediction_error ud g s d sd ed e :
  strptime ud s = Ret d -> timedelta_add d 1 = Ret sd -> timedelta_add d 3 = Ret ed ->
  precip_value (precip_model g) (empty_feature_frame (precip_model g)) = Raise e ->
  serve_precip ud g s = prediction_error_response e.
Proof.
  intros Hd H1 H3 He. unfold serve_precip. rewrite predict_precip_run, Hd, H1, H3, He. reflexivity.
Qed.

Lemma x_precip_prediction_error_witness :
  serve_precip no_unicode g_fail date_ex
  = prediction_error_response (PyExc "NotFittedError" "This estimator is not fitted yet.").
Proof.
  apply (x_precip_prediction_error no_unicode g_fail date_ex (2024, 2, 25) (2024, 2, 26) (2024, 2, 28));
    vm_compute; reflexivity.
Defined.

(** Extra X8: adding [k] days to a valid date gives the date [k] days
    later in the calendar, itself a valid date, when that date is within
    year 9999, and raises [OverflowError] otherwise. *)
Theorem x_timedelta_days y m d k : valid_date y m d = true ->
  (year_of (plus_days k (y, m, d)) <= 9999 ->
     timedelta_add (y, m, d) (Z.of_nat k) = Ret (plus_days k (y, m, d))
     /\ let '(y', m', d') := plus_days k (y, m, d) in valid_date y' m' d' = true)
  /\ (9999 < year_of (plus_days k (y, m, d)) ->
     timedelta_add (y, m, d) (Z.of_nat k) = Raise (OverflowError "date value out of range")).
Proof.
  intros Hv. rewrite (timedelta_add_spec y m d k Hv). split.
  - intros Hy. replace (year_of (plus_days k (y, m, d)) <=? 9999) with true
      by (symmetry; apply Z.leb_le; exact Hy).
    split; [reflexivity | apply plus_days_valid; assumption].
  - intros Hy. replace (year_of (plus_days k (y, m, d)) <=? 9999) with false
      by (symmetry; apply Z.leb_gt; exact Hy).
    reflexivity.
Qed.

Lemma x_timedelta_days_witness :
  (year_of (plus_days 7 (2024, 2, 25)) <= 9999 ->
     timedelta_add (2024, 2, 25) (Z.of_nat 7) = Ret (plus_days 7 (2024, 2, 25))
     /\ let '(y', m', d') := plus_days 7 (2024, 2, 25) in valid_date y' m' d' = true)
  /\ (9999 < year_of (plus_days 7 (2024, 2, 25)) ->
     timedelta_add (2024, 2, 25) (Z.of_nat 7) = Raise (OverflowError "date value out of range")).
Proof. apply x_timedelta_days. reflexivity. Defined.

(** Extra X9: on a valid date, adding [j] days and then adding [k] days
    to the result gives what adding [j + k] days gives: the same date, or
    the same [OverflowError], whichever of the two additions overflows. *)
Theorem x_timedelta_compose y m d j k : valid_date y m d = true ->
  match timedelta_add (y, m, d) (Z.of_nat j) with
  | Ret d1 => timedelta_add d1 (Z.of_nat k)
  | Raise e => Raise e
  end = timedelta_add (y, m, d) (Z.of_nat (j + k)).
Proof.
  intros Hv. rewrite (timedelta_add_spec y m d j Hv), (timedelta_add_spec y m d (j + k) Hv).
  destruct (Z.leb_spec (year_of (plus_days j (y, m, d))) 9999) as [Hy|Hy].
  - pose proof (plus_days_valid j y m d Hv Hy) as Hv1.
    replace (plus_days (j + k) (y, m, d)) with (plus_days k (plus_days j (y, m, d)))
      by (unfold plus_days; symmetry; apply add_days_spec_add).
    destruct (plus_days j (y, m, d)) as [[y1 m1] d1].
    rewrite (timedelta_add_spec y1 m1 d1 k Hv1). reflexivity.
  - destruct (Z.leb_spec (year_of (plus_days (j + k) (y, m, d))) 9999) as [Hk|Hk]; [|reflexivity].
    pose proof (plus_days_year_mono j (j + k) y m d ltac:(lia) Hv Hk). lia.
Qed.

Lemma x_timedelta_compose_witness :
  match timedelta_add (9999, 12, 25) (Z.of_nat 3) with
  | Ret d1 => timedelta_add d1 (Z.of_nat 7)
  | Raise e => Raise e
  end = timedelta_add (9999, 12, 25) (Z.of_nat (3 + 7)).
Proof. apply (x_timedelta_compose 9999 12 25 3 7). reflexivity. Defined.

(** Extra X10: on a parsed date, when the date 7 (rain) or 3
    (precipitation) days later is past year 9999, the endpoint answers
    500 Internal Server Error, whatever the model. *)
Theorem x_overflow_500 ud g s y m d : strptime ud s = Ret (y, m, d) ->
  (9999 < year_of (plus_days 7 (y, m, d)) -> serve_rain ud g s = internal_error)
  /\ (9999 < year_of (plus_days 3 (y, m, d)) -> serve_precip ud g s = internal_error).
Proof.
  intros Hd. pose proof (strptime_valid ud s y m d Hd) as Hv. split; intros Hy.
  - unfold serve_rain. rewrite predict_rain_run, Hd.
    change (timedelta_add (y, m, d) 7) with (timedelta_add (y, m, d) (Z.of_nat 7)).
    rewrite (timedelta_add_spec y m d 7 Hv).
    replace (year_of (plus_days 7 (y, m, d)) <=? 9999) with false
      by (symmetry; apply Z.leb_gt; exact Hy).
    reflexivity.
  - unfold serve_precip. rewrite predict_precip_run, Hd.
    change (timedelta_add (y, m, d) 1) with (timedelta_add (y, m, d) (Z.of_nat 1)).
    change (timedelta_add (y, m, d) 3) with (timedelta_add (y, m, d) (Z.of_nat 3)).
    rewrite (timedelta_add_spec y m d 1 Hv), (timedelta_add_spec y m d 3 Hv).
    replace (year_of (plus_days 3 (y, m, d)) <=? 9999) with false
      by (symmetry; apply Z.leb_gt; exact Hy).
    destruct (year_of (plus_days 1 (y, m, d)) <=? 9999); reflexivity.
Qed.

Lemma x_overflow_500_witness :
  (9999 < year_of (plus_days 7 (9999, 12, 31)) -> serve_rain no_unicode g_ok date_max = internal_error)
  /\ (9999 < year_of (plus_days 3 (9999, 12, 31)) -> serve_precip no_unicode g_ok date_max = internal_error).
Proof. apply x_overflow_500. vm_compute. reflexivity. Defined.

(** Extra X11: for any date from year 1000 on that [strptime] accepts
    (zero-padded or not) with the date 7 days later within year 9999, a successful classifier call
    gives 200, echoes the input string as [input_date] and writes the date
    7 days later as zero-padded [YYYY-MM-DD]. *)
Theorem x_rain_normalised ud g s y m d p :
  strptime ud s = Ret (y, m, d) -> 1000 <= y -> year_of (plus_days 7 (y, m, d)) <= 9999 ->
  rain_proba (rain_model g) (empty_feature_frame (rain_model g)) = Ret p ->
  serve_rain ud g s =
  {| status := 200;
     content := JObj [("input_date"%string, JStr s);
                      ("prediction"%string,
                       JObj [("date"%string, JStr (strftime_Ymd (plus_days 7 (y, m, d))));
                             ("will_rain"%string, JBool (float_ge p (rain_threshold g)))])] |}
  /\ strict_text (strftime_Ymd (plus_days 7 (y, m, d))) (plus_days 7 (y, m, d)).
Proof.
  intros Hd _ Hy Hp. pose proof (strptime_valid ud s y m d Hd) as Hv. split.
  - unfold serve_rain. rewrite predict_rain_run, Hd.
    change (timedelta_add (y, m, d) 7) with (timedelta_add (y, m, d) (Z.of_nat 7)).
    rewrite (timedelta_plus_days 7 y m d Hv Hy), Hp. reflexivity.
  - apply strftime_plus_days; assumption.
Qed.

Lemma x_rain_normalised_witness :
  serve_rain no_unicode g_ok date_loose =
  {| status := 200;
     content := JObj [("input_date"%string, JStr date_loose);
                      ("prediction"%string,
                       JObj [("date"%string, JStr (strftime_Ymd (plus_days 7 (2024, 1, 5))));
                             ("will_rain"%string, JBool (float_ge (q2f 7 10) (rain_threshold g_ok)))])] |}
  /\ strict_text (strftime_Ymd (plus_days 7 (2024, 1, 5))) (plus_days 7 (2024, 1, 5)).
Proof.
  apply x_rain_normalised.
  - vm_compute. reflexivity.
  - lia.
  - apply Z.leb_le. vm_compute. reflexivity.
  - reflexivity.
Defined.

(** Extra X12: for any date from year 1000 on that [strptime] accepts with
    the date 3 days later within year 9999, a regressor value other than [+inf] gives 200, echoes
    the input string and writes the dates 1 and 3 days later as
    zero-padded [YYYY-MM-DD]. *)
Theorem x_precip_normalised ud g s y m d p :
  strptime ud s = Ret (y, m, d) -> 1000 <= y -> year_of (plus_days 3 (y, m, d)) <= 9999 ->
  precip_value (precip_model g) (empty_feature_frame (precip_model g)) = Ret p ->
  valid_binary prec emax p = true -> p <> S754_infinity false ->
  exists f,
    serve_precip ud g s =
    {| status := 200;
       content := JObj [("input_date"%string, JStr s);
                        ("prediction"%string,
                         JObj [("start_date"%string, JStr (strftime_Ymd (plus_days 1 (y, m, d))));
                               ("end_date"%string, JStr (strftime_Ymd (plus_days 3 (y, m, d))));
                               ("precipitation_fall"%string, JFloat f)])] |}
    /\ strict_text (strftime_Ymd (plus_days 1 (y, m, d))) (plus_days 1 (y, m, d))
    /\ strict_text (strftime_Ymd (plus_days 3 (y, m, d))) (plus_days 3 (y, m, d)).
Proof.
  intros Hd _ Hy Hp Hb Hinf. pose proof (strptime_valid ud s y m d Hd) as Hv.
  pose proof (plus_days_year_mono 1 3 y m d ltac:(lia) Hv Hy) as Hy1.
  destruct (round_max_finite p Hb Hinf) as (f & Hr & Hf).
  exists f. split; [|split; apply strftime_plus_days; assumption].
  unfold serve_precip. rewrite predict_precip_run, Hd.
  change (timedelta_add (y, m, d) 1) with (timedelta_add (y, m, d) (Z.of_nat 1)).
  change (timedelta_add (y, m, d) 3) with (timedelta_add (y, m, d) (Z.of_nat 3)).
  rewrite (timedelta_plus_days 1 y m d Hv Hy1), (timedelta_plus_days 3 y m d Hv Hy), Hp, Hr.
  cbn [fst respond json_allowed]. rewrite Hf. reflexivity.
Qed.

Lemma x_precip_normalised_witness :
  exists f,
    serve_precip no_unicode g_ok date_loose =
    {| status := 200;
       content := JObj [("input_date"%string, JStr date_loose);
                        ("prediction"%string,
                         JObj [("start_date"%string, JStr (strftime_Ymd (plus_days 1 (2024, 1, 5))));
                               ("end_date"%string, JStr (strftime_Ymd (plus_days 3 (2024, 1, 5))));
                               ("precipitation_fall"%string, JFloat f)])] |}
    /\ strict_text (strftime_Ymd (plus_days 1 (2024, 1, 5))) (plus_days 1 (2024, 1, 5))
    /\ strict_text (strftime_Ymd (plus_days 3 (2024, 1, 5))) (plus_days 3 (2024, 1, 5)).
Proof.
  apply (x_precip_normalised no_unicode g_ok date_loose 2024 1 5 (q2f 1234 1000)).
  - vm_compute. reflexivity.
  - lia.
  - apply Z.leb_le. vm_compute. reflexivity.
  - reflexivity.
  - vm_compute. reflexivity.
  - intros H. vm_compute in H. discriminate H.
Defined.

(** Extra X13: when the threshold or the classifier's probability is NaN,
    every 200 answer of the rain endpoint has [will_rain] false. *)
Theorem x_nan_never_rains ud g s :
  status (serve_rain ud g s) = 200 ->
  (rain_threshold g = S754_nan
   \/ rain_proba (rain_model g) (empty_feature_frame (rain_model g)) = Ret S754_nan) ->
  response_will_rain (content (serve_rain ud g s)) = Some false.
Proof.
  intros H200 Hn. destruct (serve_rain_200 ud g s H200) as (p & pd & Hp & ->).
  cbn [content response_will_rain]. f_equal.
  destruct Hn as [Ht|Hq].
  - rewrite Ht. destruct p; reflexivity.
  - rewrite Hq in Hp. injection Hp as <-. reflexivity.
Qed.

Lemma x_nan_never_rains_witness :
  response_will_rain (content (serve_rain no_unicode g_nan date_ex)) = Some false.
Proof.
  apply x_nan_never_rains.
  - vm_compute. reflexivity.
  - left. reflexivity.
Defined.

(** Extra X14: for any date [strptime] accepts with the date 3 days later
    within year 9999, a regressor value not above [0.0] (negative, a zero,
    [-inf] or NaN) gives 200 with [precipitation_fall] equal to [0.0]. *)
Theorem x_precip_nonpositive ud g s y m d p :
  strptime ud s = Ret (y, m, d) -> year_of (plus_days 3 (y, m, d)) <= 9999 ->
  precip_value (precip_model g) (empty_feature_frame (precip_model g)) = Ret p ->
  SFltb float_zero p = false ->
  serve_precip ud g s =
  {| status := 200;
     content := JObj [("input_date"%string, JStr s);
                      ("prediction"%string,
                       JObj [("start_date"%string, JStr (strftime_Ymd (plus_days 1 (y, m, d))));
                             ("end_date"%string, JStr (strftime_Ymd (plus_days 3 (y, m, d))));
                             ("precipitation_fall"%string, JFloat float_zero)])] |}.
Proof.
  intros Hd Hy Hp Hlt. pose proof (strptime_valid ud s y m d Hd) as Hv.
  pose proof (plus_days_year_mono 1 3 y m d ltac:(lia) Hv Hy) as Hy1.
  unfold serve_precip. rewrite predict_precip_run, Hd.
  change (timedelta_add (y, m, d) 1) with (timedelta_add (y, m, d) (Z.of_nat 1)).
  change (timedelta_add (y, m, d) 3) with (timedelta_add (y, m, d) (Z.of_nat 3)).
  rewrite (timedelta_plus_days 1 y m d Hv Hy1), (timedelta_plus_days 3 y m d Hv Hy), Hp.
  rewrite (round_max_zero p Hlt). reflexivity.
Qed.

Lemma x_precip_nonpositive_witness :
  serve_precip no_unicode g_nanp date_ex =
  {| status := 200;
     content := JObj [("input_date"%string, JStr date_ex);
                      ("prediction"%string,
                       JObj [("start_date"%string, JStr (strftime_Ymd (plus_days 1 (2024, 2, 25))));
                             ("end_date"%string, JStr (strftime_Ymd (plus_days 3 (2024, 2, 25))));
                             ("precipitation_fall"%string, JFloat float_zero)])] |}.
Proof.
  apply (x_precip_nonpositive no_unicode g_nanp date_ex 2024 2 25 S754_nan).
  - vm_compute. reflexivity.
  - apply Z.leb_le. vm_compute. reflexivity.
  - reflexivity.
  - reflexivity.
Defined.

(** Extra X15: on a parsed date, a regressor answering [+inf] always gets
    500 Internal Server Error: [round] keeps [inf] and the JSON rendering
    refuses it. *)
Theorem x_precip_inf_500 ud g s d :
  strptime ud s = Ret d ->
  precip_value (precip_model g) (empty_feature_frame (precip_model g)) = Ret (S754_infinity false) ->
  serve_precip ud g s = internal_error.
Proof.
  intros Hd Hp. unfold serve_precip. rewrite predict_precip_run, Hd.
  destruct (timedelta_add d 1) as [sd|e] eqn:E1.
  2:{ apply timedelta_add_raise in E1. subst e. reflexivity. }
  destruct (timedelta_add d 3) as [ed|e] eqn:E3.
  2:{ apply timedelta_add_raise in E3. subst e. reflexivity. }
  rewrite Hp. reflexivity.
Qed.

Lemma x_precip_inf_500_witness : serve_precip no_unicode g_inf date_ex = internal_error.
Proof. apply (x_precip_inf_500 no_unicode g_inf date_ex (2024, 2, 25)); reflexivity. Defined.

(** Extra X16: [round(max(0.0, p), 2)] never raises and gives a finite
    float at least [0.0], for every binary64 [p] but [+inf]. *)
Theorem x_round_total p : valid_binary prec emax p = true -> p <> S754_infinity false ->
  exists f, float_round (py_max float_zero p) 2 = Ret f
            /\ is_finite f = true /\ SFleb float_zero f = true.
Proof.
  intros Hb Hinf. destruct (round_max_finite p Hb Hinf) as (f & Hr & Hf).
  exists f. split; [exact Hr|]. split; [exact Hf|]. apply (fall_nonneg p f Hr Hf).
Qed.

Lemma x_round_total_witness :
  exists f, float_round (py_max float_zero (q2f 1234 1000)) 2 = Ret f
            /\ is_finite f = true /\ SFleb float_zero f = true.
Proof.
  apply x_round_total; [vm_compute; reflexivity|].
  intros H. vm_compute in H. discriminate H.
Defined.

(** Extra X17: for [predict_proba] answering rows of one width [w],
    [float(predict_proba(X)[:, 1][0])] is the second entry of the first row
    when there is a row and [w >= 2], and raises [IndexError] when there is
    no row or [w < 2]. *)
Theorem x_rain_proba_shape model X rows w :
  predict_proba model X = Ret rows -> (forall r, In r rows -> List.length r = w) ->
  ((rows = [] \/ (w < 2)%nat) -> exists msg, rain_proba model X = Raise (IndexError msg))
  /\ (forall r0 rest, rows = r0 :: rest -> (2 <= w)%nat ->
        exists p, nth_error r0 1 = Some p /\ rain_proba model X = Ret p).
Proof.
  intros Hp Hw. unfold rain_proba. rewrite Hp. split.
  - intros [->|Hlt]; [eexists; reflexivity|].
    destruct rows as [|r0 rest]; [eexists; reflexivity|].
    assert (Hn : nth_error r0 1 = None)
      by (apply nth_error_None; rewrite (Hw r0 (or_introl eq_refl)); lia).
    cbn [column1]. rewrite Hn. eexists. reflexivity.
  - intros r0 rest -> Hle.
    destruct (column1_ok rest) as [col Hc].
    { intros r Hr. rewrite (Hw r (or_intror Hr)). exact Hle. }
    destruct (nth_error r0 1) as [p|] eqn:Hn.
    + exists p. split; [reflexivity|]. cbn [column1]. rewrite Hn, Hc. reflexivity.
    + apply nth_error_None in Hn. rewrite (Hw r0 (or_introl eq_refl)) in Hn. lia.
Qed.

Lemma x_rain_proba_shape_witness :
  ((([[q2f 3 10; q2f 7 10]] : list (list float)) = [] \/ (2 < 2)%nat) ->
     exists msg, rain_proba est_ok (empty_feature_frame est_ok) = Raise (IndexError msg))
  /\ (forall r0 rest, [[q2f 3 10; q2f 7 10]] = r0 :: rest -> (2 <= 2)%nat ->
        exists p, nth_error r0 1 = Some p /\ rain_proba est_ok (empty_feature_frame est_ok) = Ret p).
Proof.
  apply x_rain_proba_shape; [reflexivity|].
  intros r [<-|[]]. reflexivity.
Defined.

(** Extra X18: with [META_MODEL1_PATH] set to the empty string, the
    threshold is 0.5 whatever files exist: the variable wins over the glob
    match and an empty path skips the metadata. *)
Theorem x_meta_env_empty environ glob jl pe jla fos g :
  environ (ascii_codes "META_MODEL1_PATH") = Some [] ->
  load_module environ glob jl pe jla fos = Ret g -> rain_threshold g = float_half.
Proof.
  intros He. unfold load_module, startup.
  destruct (jl (RAIN_MODEL_PATH environ glob)); [|discriminate].
  destruct (jl (PRECIP_MODEL_PATH environ glob)); [|discriminate].
  intros [= <-]. cbn [rain_threshold]. unfold load_rain_threshold. cbn [meta_path].
  unfold META_MODEL1_PATH, resolve_path, os_getenv. rewrite He. reflexivity.
Qed.

Lemma x_meta_env_empty_witness :
  rain_threshold {| rain_model := est_ok; precip_model := est_ok; rain_threshold := float_half |}
  = float_half.
Proof.
  apply (x_meta_env_empty env_meta_empty glob_none load_ok (fun _ => true) json_07 no_float_str).
  - reflexivity.
  - reflexivity.
Defined.

End Extras.
